(** * Scheduler event loading: tracepoint events to thread transitions

    A shallow embedding of [analysis/sched_event_loader.go]: the
    [eventLoader] registry, its [threadTransitions] dispatch, and the
    interpreters [LoadSchedMigrateTask], [LoadSchedSwitch],
    [LoadSchedWakeup] and [LoadSchedSwitchWithSynthetics].

    Go maps are [gmap]s; a Go [v, ok := m[k]] is [number_at]; a Go
    function that mutates the builder it is handed takes the builder and
    returns the new one.  The declarations the loader file imports from
    the rest of its package (value types, the string bank, the transition
    record and its builder) are taken as parameters or modelled from the
    specification, and are marked as such. *)

From Stdlib Require Import ZArith String List DecimalString.
From Stdlib Require Import Ascii DecimalPos DecimalZ.
From stdpp Require Import base option list relations strings gmap.

Local Open Scope Z_scope.

(** ** Errors *)

(** gRPC status codes; the loader only ever uses [codes.NotFound]. *)
Module codes.
Inductive Code : Set := NotFound.
End codes.

(** A Go [error] value is either built by [errors.New] or by
    [status.Errorf]; [option error] is the Go [error] interface, [None]
    being [nil]. *)
Inductive error : Set :=
| errors_New (text : string)
| status_Errorf (c : codes.Code) (msg : string).

(** The [%d] verb of [fmt] on an integer. *)
Definition fmt_d (n : Z) : string := NilZero.string_of_int (Z.to_int n).

(** ** Trace events *)

(** Modelled from the spec: [trace.Event] is declared in the trace
    decoder, outside this file.  It carries an index, a tracepoint name, a
    reporting CPU, a timestamp, a clipped flag, and text and numeric
    property maps keyed by field name, both possibly partial. *)
Module trace.
Record Event : Type := {
  Index : Z;
  Name : string;
  CPU : Z;
  Timestamp : Z;
  Clipped : bool;
  TextProperties : gmap string string;
  NumberProperties : gmap string Z
}.
End trace.

(** [m[k]] on a [map[string]string]: the empty string when [k] is absent. *)
Definition text_at (m : gmap string string) (k : string) : string :=
  default EmptyString (m !! k).

(** [v, ok := m[k]] on a numeric map: the zero value and [false] when [k]
    is absent. *)
Definition number_at (m : gmap string Z) (k : string) : Z * bool :=
  match m !! k with
  | Some v => (v, true)
  | None => (0, false)
  end.

(** ** Value types *)

(** Modelled from the spec: the declarations of [PID], [CPUID], [Priority]
    and of the [UnknownPriority] and [UnknownCPU] sentinels are not in the
    loader's file, so they are parameters.  [toPID n] is the Go conversion
    [PID(n)] of a numeric property, and likewise for the other two. *)
Class SchedTypes : Type := {
  PID : Type;
  CPUID : Type;
  Priority : Type;
  toPID : Z -> PID;
  toCPUID : Z -> CPUID;
  toPriority : Z -> Priority;
  UnknownPriority : Priority;
  UnknownCPU : CPUID
}.

(** Modelled from the spec: thread states are the enumeration Unknown,
    Running, Waiting, Sleeping. *)
Inductive ThreadState : Set :=
| UnknownState
| RunningState
| WaitingState
| SleepingState.

(** Modelled from the spec: conflict policies, [Assert] being the default. *)
Inductive ConflictPolicy : Set :=
| Assert
| Drop
| InsertSynthetic.

(** ** The string bank *)

(** Modelled from the spec: the string bank is an external interning
    cache.  [stringIDByString b s] interns [s] in bank [b] and returns the
    handle together with the bank afterwards.  Its contract is that the
    handle is stable: once a text was given a handle, interning an equal
    text returns the same handle, whatever was interned in between.
    [UnknownCommand] is the command a transition holds before one is set. *)
Class StringBank : Type := {
  stringBank : Type;
  stringID : Type;
  UnknownCommand : stringID;
  stringIDByString : stringBank -> string -> stringID * stringBank;
  stringIDByString_stable :
    forall (b : stringBank) (s : string) (b' : stringBank),
      rtc (fun b1 b2 => exists t, (stringIDByString b1 t).2 = b2)
          (stringIDByString b s).2 b' ->
      (stringIDByString b' s).1 = (stringIDByString b s).1
}.

(** [grows b b']: bank [b'] is [b] after any number of internings. *)
Definition grows `{StringBank} : stringBank -> stringBank -> Prop :=
  rtc (fun b1 b2 => exists t, (stringIDByString b1 t).2 = b2).

(** [handle_of b s h]: in bank [b], and in every bank it grows into,
    interning [s] returns [h]. *)
Definition handle_of `{StringBank} (b : stringBank) (s : string)
    (h : stringID) : Prop :=
  forall b', grows b b' -> (stringIDByString b' s).1 = h.

(** *** A bank of texts in order of first interning

    The handle of a text is its position in the list. *)
Module ListBank.

Fixpoint index_of (s : string) (l : list string) : option nat :=
  match l with
  | [] => None
  | x :: l' =>
      if String.eqb x s then Some O else S <$> index_of s l'
  end.

Definition intern (b : list string) (s : string) : nat * list string :=
  match index_of s b with
  | Some i => (i, b)
  | None => (length b, b ++ [s])
  end.

End ListBank.

(** Go's method chaining: [b |> f |> g] is [b.f().g()]. *)
Notation "b |> f" := (f b) (at level 45, left associativity, only parsing).

Section Loader.
Context `{SchedTypes} `{StringBank}.

(** ** Thread transitions *)

(** Modelled from the spec: the transition record is declared outside
    this file.  It has the event index, timestamp and PID, a previous
    and a next value on each of the four channels, and a forwards and a
    backwards conflict policy for the CPU and the state channel.
    Commands are held as string-bank handles. *)
Record threadTransition : Type := {
  EventIndex : Z;
  Timestamp : Z;
  Pid : PID;
  PrevCommand : stringID;
  NextCommand : stringID;
  PrevPriority : Priority;
  NextPriority : Priority;
  PrevCPU : CPUID;
  NextCPU : CPUID;
  PrevState : ThreadState;
  NextState : ThreadState;
  onForwardsCPUConflict : ConflictPolicy;
  onBackwardsCPUConflict : ConflictPolicy;
  onForwardsStateConflict : ConflictPolicy;
  onBackwardsStateConflict : ConflictPolicy
}.

(** Modelled from the spec: a transition starts with every channel
    Unknown on both sides and every policy [Assert]. *)
Definition newThreadTransition (eventIndex timestamp : Z) (pid : PID)
    : threadTransition :=
  {| EventIndex := eventIndex; Timestamp := timestamp; Pid := pid;
     PrevCommand := UnknownCommand; NextCommand := UnknownCommand;
     PrevPriority := UnknownPriority; NextPriority := UnknownPriority;
     PrevCPU := UnknownCPU; NextCPU := UnknownCPU;
     PrevState := UnknownState; NextState := UnknownState;
     onForwardsCPUConflict := Assert; onBackwardsCPUConflict := Assert;
     onForwardsStateConflict := Assert;
     onBackwardsStateConflict := Assert |}.

Definition setPrevCommand (v : stringID) (t : threadTransition) :=
  let 'Build_threadTransition a b c _ e f g h i j k l m n o := t in
  Build_threadTransition a b c v e f g h i j k l m n o.
Definition setNextCommand (v : stringID) (t : threadTransition) :=
  let 'Build_threadTransition a b c d _ f g h i j k l m n o := t in
  Build_threadTransition a b c d v f g h i j k l m n o.
Definition setPrevPriority (v : Priority) (t : threadTransition) :=
  let 'Build_threadTransition a b c d e _ g h i j k l m n o := t in
  Build_threadTransition a b c d e v g h i j k l m n o.
Definition setNextPriority (v : Priority) (t : threadTransition) :=
  let 'Build_threadTransition a b c d e f _ h i j k l m n o := t in
  Build_threadTransition a b c d e f v h i j k l m n o.
Definition setPrevCPU (v : CPUID) (t : threadTransition) :=
  let 'Build_threadTransition a b c d e f g _ i j k l m n o := t in
  Build_threadTransition a b c d e f g v i j k l m n o.
Definition setNextCPU (v : CPUID) (t : threadTransition) :=
  let 'Build_threadTransition a b c d e f g h _ j k l m n o := t in
  Build_threadTransition a b c d e f g h v j k l m n o.
Definition setPrevState (v : ThreadState) (t : threadTransition) :=
  let 'Build_threadTransition a b c d e f g h i _ k l m n o := t in
  Build_threadTransition a b c d e f g h i v k l m n o.
Definition setNextState (v : ThreadState) (t : threadTransition) :=
  let 'Build_threadTransition a b c d e f g h i j _ l m n o := t in
  Build_threadTransition a b c d e f g h i j v l m n o.
Definition setOnForwardsCPUConflict (v : ConflictPolicy)
    (t : threadTransition) :=
  let 'Build_threadTransition a b c d e f g h i j k _ m n o := t in
  Build_threadTransition a b c d e f g h i j k v m n o.
Definition setOnBackwardsCPUConflict (v : ConflictPolicy)
    (t : threadTransition) :=
  let 'Build_threadTransition a b c d e f g h i j k l _ n o := t in
  Build_threadTransition a b c d e f g h i j k l v n o.
Definition setOnForwardsStateConflict (v : ConflictPolicy)
    (t : threadTransition) :=
  let 'Build_threadTransition a b c d e f g h i j k l m _ o := t in
  Build_threadTransition a b c d e f g h i j k l m v o.
Definition setOnBackwardsStateConflict (v : ConflictPolicy)
    (t : threadTransition) :=
  let 'Build_threadTransition a b c d e f g h i j k l m n _ := t in
  Build_threadTransition a b c d e f g h i j k l m n v.

(** ** The transition-set builder *)

(** Modelled from the spec: the builder is declared outside this file.
    It is bound to a string bank and accumulates transitions in the
    order their construction began; the transition being configured is
    the one started last. *)
Record ThreadTransitionSetBuilder : Type := {
  ttsbStringBank : stringBank;
  tts : list threadTransition
}.

Definition newThreadTransitionSetBuilder (sb : stringBank)
    : ThreadTransitionSetBuilder :=
  {| ttsbStringBank := sb; tts := [] |}.

(** Apply [f] to the transition started last.  Every chain of the
    loaders starts with [WithTransition], so there always is one. *)
Fixpoint configure (f : threadTransition -> threadTransition)
    (l : list threadTransition) : list threadTransition :=
  match l with
  | [] => []
  | [t] => [f t]
  | t :: l' => t :: configure f l'
  end.

Definition withCurrent (f : threadTransition -> threadTransition)
    (b : ThreadTransitionSetBuilder) : ThreadTransitionSetBuilder :=
  {| ttsbStringBank := ttsbStringBank b; tts := configure f (tts b) |}.

(** A command is interned in the builder's bank and its handle stored. *)
Definition withCommand (set : stringID -> threadTransition -> threadTransition)
    (command : string) (b : ThreadTransitionSetBuilder)
    : ThreadTransitionSetBuilder :=
  let '(id, sb) := stringIDByString (ttsbStringBank b) command in
  {| ttsbStringBank := sb; tts := configure (set id) (tts b) |}.

Definition WithTransition (eventIndex timestamp : Z) (pid : PID)
    (b : ThreadTransitionSetBuilder) : ThreadTransitionSetBuilder :=
  {| ttsbStringBank := ttsbStringBank b;
     tts := tts b ++ [newThreadTransition eventIndex timestamp pid] |}.

Definition WithPrevCommand := withCommand setPrevCommand.
Definition WithNextCommand := withCommand setNextCommand.
Definition WithPrevPriority (p : Priority) := withCurrent (setPrevPriority p).
Definition WithNextPriority (p : Priority) := withCurrent (setNextPriority p).
Definition WithPrevCPU (c : CPUID) := withCurrent (setPrevCPU c).
Definition WithNextCPU (c : CPUID) := withCurrent (setNextCPU c).
Definition WithPrevState (s : ThreadState) := withCurrent (setPrevState s).
Definition WithNextState (s : ThreadState) := withCurrent (setNextState s).
Definition OnForwardsCPUConflict (p : ConflictPolicy) :=
  withCurrent (setOnForwardsCPUConflict p).
Definition OnBackwardsCPUConflict (p : ConflictPolicy) :=
  withCurrent (setOnBackwardsCPUConflict p).
Definition OnForwardsStateConflict (p : ConflictPolicy) :=
  withCurrent (setOnForwardsStateConflict p).
Definition OnBackwardsStateConflict (p : ConflictPolicy) :=
  withCurrent (setOnBackwardsStateConflict p).

(** Finalize: the transitions configured so far, in order. *)
Definition transitions (b : ThreadTransitionSetBuilder)
    : list threadTransition := tts b.

(** ** The registry *)

(** A loader function takes the event and a pointer to the builder and
    returns an error; here it returns its error and the builder as it
    left it. *)
Definition Loader : Type :=
  trace.Event -> ThreadTransitionSetBuilder ->
  option error * ThreadTransitionSetBuilder.

(** The [stringBank] field is a pointer in the source; here the record
    holds the bank's contents, and an operation that interns returns the
    registry with the bank as it is afterwards. *)
Record eventLoader : Type := {
  elStringBank : stringBank;
  loaders : gmap string Loader
}.

Definition newEventLoader (loaders : gmap string Loader) (sb : stringBank)
    : option eventLoader * option error :=
  if Nat.eqb (size loaders) 0 then
    (None,
     Some (errors_New "an empty eventLoader cannot generate threadTransitions"))
  else
    (Some {| elStringBank := sb; loaders := loaders |}, None).

Definition threadTransitions (el : eventLoader) (ev : trace.Event)
    : list threadTransition * option error * eventLoader :=
  if trace.Clipped ev then ([], None, el)
  else
    let ttsb := newThreadTransitionSetBuilder (elStringBank el) in
    match (loaders el !! trace.Name ev : option Loader) with
    | None => ([], None, el)
    | Some loader =>
        let '(err, ttsb) := loader ev ttsb in
        let el := {| elStringBank := ttsbStringBank ttsb;
                     loaders := loaders el |} in
        match err with
        | Some err => ([], Some err, el)
        | None => (transitions ttsb, None, el)
        end
    end.

Definition MissingFieldError (fieldName : string) (ev : trace.Event)
    : error :=
  status_Errorf codes.NotFound
    ("field '" +:+ fieldName +:+ "' not found for event "
       +:+ fmt_d (trace.Index ev)).

(** ** The interpreters *)

(** [LoadSchedMigrateTask] loads a sched_migrate_task event. *)
Definition LoadSchedMigrateTask (ev : trace.Event)
    (ttsb : ThreadTransitionSetBuilder)
    : option error * ThreadTransitionSetBuilder :=
  let '(pid, ok) := number_at (trace.NumberProperties ev) "pid" in
  if negb ok then (Some (MissingFieldError "pid" ev), ttsb) else
  let comm := text_at (trace.TextProperties ev) "comm" in
  let '(prio, ok) := number_at (trace.NumberProperties ev) "prio" in
  let priority := toPriority prio in
  let priority := if negb ok then UnknownPriority else priority in
  let '(origCPU, ok) := number_at (trace.NumberProperties ev) "orig_cpu" in
  if negb ok then (Some (MissingFieldError "orig_cpu" ev), ttsb) else
  let '(destCPU, ok) := number_at (trace.NumberProperties ev) "dest_cpu" in
  if negb ok then (Some (MissingFieldError "dest_cpu" ev), ttsb) else
  let ttsb :=
    ttsb |> WithTransition (trace.Index ev) (trace.Timestamp ev) (toPID pid)
         |> WithPrevCommand comm
         |> WithNextCommand comm
         |> WithPrevPriority priority
         |> WithNextPriority priority
         |> WithPrevCPU (toCPUID origCPU)
         |> WithNextCPU (toCPUID destCPU) in
  (None, ttsb).

(** The data extracted from a raw sched_switch event; Next and Prev are
    the switched-in and the switched-out thread.  The source's fields
    [NextPriority], [PrevPriority] and [PrevState] carry a [Switch] prefix
    here, the transition record having fields of those names. *)
Record SwitchData : Type := {
  NextPID : PID;
  PrevPID : PID;
  NextComm : string;
  PrevComm : string;
  SwitchNextPriority : Priority;
  SwitchPrevPriority : Priority;
  SwitchPrevState : ThreadState
}.

(** [LoadSwitchData] loads the data of a sched_switch event.  The source
    fills a zero-initialised struct field by field and returns it only
    when no field is missing; here the struct is built at the end. *)
Definition LoadSwitchData (ev : trace.Event)
    : option SwitchData * option error :=
  let '(nextPID, ok) := number_at (trace.NumberProperties ev) "next_pid" in
  if negb ok then (None, Some (MissingFieldError "next_pid" ev)) else
  let retNextPID := toPID nextPID in
  let retNextComm := text_at (trace.TextProperties ev) "next_comm" in
  let '(nextPrio, ok) := number_at (trace.NumberProperties ev) "next_prio" in
  let retNextPriority := toPriority nextPrio in
  let retNextPriority :=
    if negb ok then UnknownPriority else retNextPriority in
  let '(prevPID, ok) := number_at (trace.NumberProperties ev) "prev_pid" in
  if negb ok then (None, Some (MissingFieldError "prev_pid" ev)) else
  let retPrevPID := toPID prevPID in
  let retPrevComm := text_at (trace.TextProperties ev) "prev_comm" in
  let '(prevPrio, ok) := number_at (trace.NumberProperties ev) "prev_prio" in
  let retPrevPriority := toPriority prevPrio in
  let retPrevPriority :=
    if negb ok then UnknownPriority else retPrevPriority in
  let '(prevTaskState, ok) :=
    number_at (trace.NumberProperties ev) "prev_state" in
  if negb ok then (None, Some (MissingFieldError "prev_state" ev)) else
  let retPrevState := WaitingState in
  let retPrevState :=
    if negb (prevTaskState =? 0) then SleepingState else retPrevState in
  (Some {| NextPID := retNextPID; PrevPID := retPrevPID;
           NextComm := retNextComm; PrevComm := retPrevComm;
           SwitchNextPriority := retNextPriority;
           SwitchPrevPriority := retPrevPriority;
           SwitchPrevState := retPrevState |}, None).

(** [LoadSchedSwitch] loads a sched_switch event. *)
Definition LoadSchedSwitch (ev : trace.Event)
    (ttsb : ThreadTransitionSetBuilder)
    : option error * ThreadTransitionSetBuilder :=
  match LoadSwitchData ev with
  | (_, Some err) => (Some err, ttsb)
  | (None, None) => (None, ttsb) (* never returned by [LoadSwitchData] *)
  | (Some sd, None) =>
      let ttsb :=
        ttsb |> WithTransition (trace.Index ev) (trace.Timestamp ev)
                  (NextPID sd)
             |> WithPrevCommand (NextComm sd)
             |> WithNextCommand (NextComm sd)
             |> WithPrevPriority (SwitchNextPriority sd)
             |> WithNextPriority (SwitchNextPriority sd)
             |> WithPrevCPU (toCPUID (trace.CPU ev))
             |> WithNextCPU (toCPUID (trace.CPU ev))
             |> WithNextState RunningState in
      let ttsb :=
        ttsb |> WithTransition (trace.Index ev) (trace.Timestamp ev)
                  (PrevPID sd)
             |> WithPrevCommand (PrevComm sd)
             |> WithNextCommand (PrevComm sd)
             |> WithPrevPriority (SwitchPrevPriority sd)
             |> WithNextPriority (SwitchPrevPriority sd)
             |> WithPrevCPU (toCPUID (trace.CPU ev))
             |> WithNextCPU (toCPUID (trace.CPU ev))
             |> WithPrevState RunningState
             |> WithNextState (SwitchPrevState sd) in
      (None, ttsb)
  end.

(** [LoadSchedWakeup] loads a sched_wakeup or sched_wakeup_new event. *)
Definition LoadSchedWakeup (ev : trace.Event)
    (ttsb : ThreadTransitionSetBuilder)
    : option error * ThreadTransitionSetBuilder :=
  let '(pid, ok) := number_at (trace.NumberProperties ev) "pid" in
  if negb ok then (Some (MissingFieldError "pid" ev), ttsb) else
  let comm := text_at (trace.TextProperties ev) "comm" in
  let '(prio, ok) := number_at (trace.NumberProperties ev) "prio" in
  let priority := toPriority prio in
  let priority := if negb ok then UnknownPriority else priority in
  let '(targetCPU, ok) :=
    number_at (trace.NumberProperties ev) "target_cpu" in
  if negb ok then (Some (MissingFieldError "target_cpu" ev), ttsb) else
  let ttsb :=
    ttsb |> WithTransition (trace.Index ev) (trace.Timestamp ev) (toPID pid)
         |> WithPrevCommand comm
         |> WithNextCommand comm
         |> WithPrevPriority priority
         |> WithNextPriority priority
         |> WithPrevCPU (toCPUID targetCPU)
         |> WithNextCPU (toCPUID targetCPU)
         |> WithNextState WaitingState
         |> OnBackwardsCPUConflict Drop
         |> OnForwardsCPUConflict Drop
         |> OnForwardsStateConflict Drop in
  (None, ttsb).

(** [DefaultEventLoaders] is the set of loaders for the standard
    scheduling tracepoints. *)
Definition DefaultEventLoaders : gmap string Loader :=
  <["sched_migrate_task" := LoadSchedMigrateTask]>
    (<["sched_switch" := LoadSchedSwitch]>
       (<["sched_wakeup" := LoadSchedWakeup]>
          (<["sched_wakeup_new" := LoadSchedWakeup]> ∅))).

(** [LoadSchedSwitchWithSynthetics] loads a sched_switch event of a
    trace that lacks the other tracepoints. *)
Definition LoadSchedSwitchWithSynthetics (ev : trace.Event)
    (ttsb : ThreadTransitionSetBuilder)
    : option error * ThreadTransitionSetBuilder :=
  match LoadSwitchData ev with
  | (_, Some err) => (Some err, ttsb)
  | (None, None) => (None, ttsb) (* never returned by [LoadSwitchData] *)
  | (Some sd, None) =>
      let ttsb :=
        ttsb |> WithTransition (trace.Index ev) (trace.Timestamp ev)
                  (NextPID sd)
             |> WithPrevCommand (NextComm sd)
             |> WithNextCommand (NextComm sd)
             |> WithPrevPriority (SwitchNextPriority sd)
             |> WithNextPriority (SwitchNextPriority sd)
             |> WithPrevCPU (toCPUID (trace.CPU ev))
             |> WithNextCPU (toCPUID (trace.CPU ev))
             |> WithPrevState WaitingState
             |> WithNextState RunningState
             |> OnForwardsCPUConflict InsertSynthetic
             |> OnBackwardsCPUConflict InsertSynthetic
             |> OnForwardsStateConflict InsertSynthetic
             |> OnBackwardsStateConflict InsertSynthetic in
      let ttsb :=
        ttsb |> WithTransition (trace.Index ev) (trace.Timestamp ev)
                  (PrevPID sd)
             |> WithPrevCommand (PrevComm sd)
             |> WithNextCommand (PrevComm sd)
             |> WithPrevPriority (SwitchPrevPriority sd)
             |> WithNextPriority (SwitchPrevPriority sd)
             |> WithPrevCPU (toCPUID (trace.CPU ev))
             |> WithNextCPU (toCPUID (trace.CPU ev))
             |> WithPrevState RunningState
             |> WithNextState (SwitchPrevState sd)
             |> OnForwardsCPUConflict InsertSynthetic
             |> OnBackwardsCPUConflict InsertSynthetic
             |> OnForwardsStateConflict InsertSynthetic
             |> OnBackwardsStateConflict InsertSynthetic in
      (None, ttsb)
  end.

(** [SwitchOnlyLoaders] is the set of loaders for traces in which only
    sched_switch events attest scheduling behaviour. *)
Definition SwitchOnlyLoaders : gmap string Loader :=
  <["sched_switch" := LoadSchedSwitchWithSynthetics]> ∅.

End Loader.

(** ** Vocabulary of the properties *)

(** The first of [fields] that the numeric map lacks, if any. *)
Fixpoint firstMissing (fields : list string) (m : gmap string Z)
    : option string :=
  match fields with
  | [] => None
  | f :: fields' =>
      match m !! f with
      | None => Some f
      | Some _ => firstMissing fields' m
      end
  end.

Section Vocabulary.
Context `{SchedTypes} `{StringBank}.

(** The interpreters of the package and the numeric fields each one
    requires, in the order it reads them. *)
Inductive requires : Loader -> list string -> Prop :=
| requires_migrate :
    requires LoadSchedMigrateTask ["pid"; "orig_cpu"; "dest_cpu"]
| requires_switch :
    requires LoadSchedSwitch ["next_pid"; "prev_pid"; "prev_state"]
| requires_wakeup :
    requires LoadSchedWakeup ["pid"; "target_cpu"]
| requires_switch_synthetics :
    requires LoadSchedSwitchWithSynthetics
      ["next_pid"; "prev_pid"; "prev_state"].

(** A transition with all four directional policies set to one value. *)
Definition withPolicies (p : ConflictPolicy) (t : threadTransition)
    : threadTransition :=
  setOnBackwardsStateConflict p
    (setOnForwardsStateConflict p
       (setOnBackwardsCPUConflict p (setOnForwardsCPUConflict p t))).

Definition hasPolicies (p : ConflictPolicy) (t : threadTransition) : Prop :=
  onForwardsCPUConflict t = p /\ onBackwardsCPUConflict t = p
  /\ onForwardsStateConflict t = p /\ onBackwardsStateConflict t = p.

(** The transition's command, before and after, is the handle of the
    empty string in bank [sb]. *)
Definition emptyCommand (sb : stringBank) (t : threadTransition) : Prop :=
  handle_of sb EmptyString (PrevCommand t)
  /\ handle_of sb EmptyString (NextCommand t).

Definition unknownPriority (t : threadTransition) : Prop :=
  PrevPriority t = UnknownPriority /\ NextPriority t = UnknownPriority.

(** *** Interpreters as builder programs

    One call of a builder operation, and the run of a list of calls on
    a builder, in order. *)
Inductive call : Type :=
| CallWithTransition (eventIndex timestamp : Z) (pid : PID)
| CallWithPrevCommand (command : string)
| CallWithNextCommand (command : string)
| CallWithPrevPriority (p : Priority)
| CallWithNextPriority (p : Priority)
| CallWithPrevCPU (c : CPUID)
| CallWithNextCPU (c : CPUID)
| CallWithPrevState (s : ThreadState)
| CallWithNextState (s : ThreadState)
| CallOnForwardsCPUConflict (p : ConflictPolicy)
| CallOnBackwardsCPUConflict (p : ConflictPolicy)
| CallOnForwardsStateConflict (p : ConflictPolicy)
| CallOnBackwardsStateConflict (p : ConflictPolicy).

Definition runCall (c : call)
    : ThreadTransitionSetBuilder -> ThreadTransitionSetBuilder :=
  match c with
  | CallWithTransition i ts pid => WithTransition i ts pid
  | CallWithPrevCommand s => WithPrevCommand s
  | CallWithNextCommand s => WithNextCommand s
  | CallWithPrevPriority p => WithPrevPriority p
  | CallWithNextPriority p => WithNextPriority p
  | CallWithPrevCPU c => WithPrevCPU c
  | CallWithNextCPU c => WithNextCPU c
  | CallWithPrevState s => WithPrevState s
  | CallWithNextState s => WithNextState s
  | CallOnForwardsCPUConflict p => OnForwardsCPUConflict p
  | CallOnBackwardsCPUConflict p => OnBackwardsCPUConflict p
  | CallOnForwardsStateConflict p => OnForwardsStateConflict p
  | CallOnBackwardsStateConflict p => OnBackwardsStateConflict p
  end.

Fixpoint runCalls (cs : list call) (b : ThreadTransitionSetBuilder)
    : ThreadTransitionSetBuilder :=
  match cs with
  | [] => b
  | c :: cs' => runCalls cs' (runCall c b)
  end.

(** A loader is a builder program when the event alone decides which
    builder operations it calls and which error it returns: it reads no
    other state, and touches the builder and its bank only through
    those operations. *)
Definition builderProgram (L : Loader) : Prop :=
  forall ev : trace.Event,
  exists (cs : list call) (err : option error),
  forall ttsb : ThreadTransitionSetBuilder,
    L ev ttsb = (err, runCalls cs ttsb).

End Vocabulary.

(** The event with text field [k] set to [v]. *)
Definition withText (k v : string) (ev : trace.Event) : trace.Event :=
  {| trace.Index := trace.Index ev;
     trace.Name := trace.Name ev;
     trace.CPU := trace.CPU ev;
     trace.Timestamp := trace.Timestamp ev;
     trace.Clipped := trace.Clipped ev;
     trace.TextProperties := <[k := v]> (trace.TextProperties ev);
     trace.NumberProperties := trace.NumberProperties ev |}.

(** *** Further vocabulary *)

Section InterpreterVocabulary.
Context `{SchedTypes} `{StringBank}.

(** The interpreters of the package with the numeric fields each one
    requires and the number of transitions it emits when it succeeds. *)
Inductive interprets : Loader -> list string -> nat -> Prop :=
| interprets_migrate :
    interprets LoadSchedMigrateTask ["pid"; "orig_cpu"; "dest_cpu"] 1
| interprets_switch :
    interprets LoadSchedSwitch ["next_pid"; "prev_pid"; "prev_state"] 2
| interprets_wakeup :
    interprets LoadSchedWakeup ["pid"; "target_cpu"] 1
| interprets_switch_synthetics :
    interprets LoadSchedSwitchWithSynthetics
      ["next_pid"; "prev_pid"; "prev_state"] 2.

(** The transition carries the event's index and timestamp. *)
Definition tagged (ev : trace.Event) (t : threadTransition) : Prop :=
  EventIndex t = trace.Index ev /\ Timestamp t = trace.Timestamp ev.

(** The priority an interpreter derives from an optional numeric field. *)
Definition priorityOf (prio : option Z) : Priority :=
  match prio with
  | Some prio => toPriority prio
  | None => UnknownPriority
  end.

(** The transition's command, before and after, is the handle of [s] in
    bank [sb]. *)
Definition hasCommand (sb : stringBank) (s : string) (t : threadTransition)
    : Prop :=
  handle_of sb s (PrevCommand t) /\ handle_of sb s (NextCommand t).

Definition hasPriority (p : Priority) (t : threadTransition) : Prop :=
  PrevPriority t = p /\ NextPriority t = p.

(** The registry's loaders are all interpreters of the package. *)
Definition packageRegistry (el : eventLoader) : Prop :=
  forall (name : string) (L : Loader),
    loaders el !! name = Some L -> exists R n, interprets L R n.

(** The four directional policies of a transition: forwards CPU,
    backwards CPU, forwards state, backwards state. *)
Definition policiesOf (t : threadTransition)
    : ConflictPolicy * ConflictPolicy * ConflictPolicy * ConflictPolicy :=
  (onForwardsCPUConflict t, onBackwardsCPUConflict t,
   onForwardsStateConflict t, onBackwardsStateConflict t).

(** The interpreters of the package with the fields each one requires and
    the policies it declares on the transitions it emits. *)
Inductive declares : Loader -> list string ->
    ConflictPolicy * ConflictPolicy * ConflictPolicy * ConflictPolicy ->
    Prop :=
| declares_migrate :
    declares LoadSchedMigrateTask ["pid"; "orig_cpu"; "dest_cpu"]
      (Assert, Assert, Assert, Assert)
| declares_switch :
    declares LoadSchedSwitch ["next_pid"; "prev_pid"; "prev_state"]
      (Assert, Assert, Assert, Assert)
| declares_wakeup :
    declares LoadSchedWakeup ["pid"; "target_cpu"]
      (Drop, Drop, Drop, Assert)
| declares_switch_synthetics :
    declares LoadSchedSwitchWithSynthetics
      ["next_pid"; "prev_pid"; "prev_state"]
      (InsertSynthetic, InsertSynthetic, InsertSynthetic, InsertSynthetic).

(** The interpreters of the package with the numeric and the text fields
    each one reads, required or optional. *)
Inductive reads : Loader -> list string -> list string -> Prop :=
| reads_migrate :
    reads LoadSchedMigrateTask
      ["pid"; "prio"; "orig_cpu"; "dest_cpu"] ["comm"]
| reads_switch :
    reads LoadSchedSwitch
      ["next_pid"; "next_prio"; "prev_pid"; "prev_prio"; "prev_state"]
      ["next_comm"; "prev_comm"]
| reads_wakeup :
    reads LoadSchedWakeup ["pid"; "prio"; "target_cpu"] ["comm"]
| reads_switch_synthetics :
    reads LoadSchedSwitchWithSynthetics
      ["next_pid"; "next_prio"; "prev_pid"; "prev_prio"; "prev_state"]
      ["next_comm"; "prev_comm"].

End InterpreterVocabulary.

(** The event with numeric field [k] set to [v]. *)
Definition withNumber (k : string) (v : Z) (ev : trace.Event) : trace.Event :=
  {| trace.Index := trace.Index ev;
     trace.Name := trace.Name ev;
     trace.CPU := trace.CPU ev;
     trace.Timestamp := trace.Timestamp ev;
     trace.Clipped := trace.Clipped ev;
     trace.TextProperties := trace.TextProperties ev;
     trace.NumberProperties := <[k := v]> (trace.NumberProperties ev) |}.

(** The event under another tracepoint name, clipped flag or reporting
    CPU. *)
Definition withName (name : string) (ev : trace.Event) : trace.Event :=
  {| trace.Index := trace.Index ev;
     trace.Name := name;
     trace.CPU := trace.CPU ev;
     trace.Timestamp := trace.Timestamp ev;
     trace.Clipped := trace.Clipped ev;
     trace.TextProperties := trace.TextProperties ev;
     trace.NumberProperties := trace.NumberProperties ev |}.

Definition withClipped (clipped : bool) (ev : trace.Event) : trace.Event :=
  {| trace.Index := trace.Index ev;
     trace.Name := trace.Name ev;
     trace.CPU := trace.CPU ev;
     trace.Timestamp := trace.Timestamp ev;
     trace.Clipped := clipped;
     trace.TextProperties := trace.TextProperties ev;
     trace.NumberProperties := trace.NumberProperties ev |}.

Definition withCPU (cpu : Z) (ev : trace.Event) : trace.Event :=
  {| trace.Index := trace.Index ev;
     trace.Name := trace.Name ev;
     trace.CPU := cpu;
     trace.Timestamp := trace.Timestamp ev;
     trace.Clipped := trace.Clipped ev;
     trace.TextProperties := trace.TextProperties ev;
     trace.NumberProperties := trace.NumberProperties ev |}.

(** Whether character [c] occurs in [s]. *)
Fixpoint occurs (c : Ascii.ascii) (s : string) : bool :=
  match s with
  | EmptyString => false
  | String a s' => Ascii.eqb a c || occurs c s'
  end.

(** ** Concrete instances, for running the loaders *)

(** 64-bit integers for every value type, with [-1] for the unknown
    sentinels. *)
Definition int64Types : SchedTypes :=
  {| PID := Z; CPUID := Z; Priority := Z;
     toPID := fun n => n; toCPUID := fun n => n; toPriority := fun n => n;
     UnknownPriority := -1; UnknownCPU := -1 |}.

Module ListBankFacts.
Import ListBank.

Lemma index_of_app (s : string) (l k : list string) (i : nat) :
  index_of s l = Some i -> index_of s (l ++ k) = Some i.
Proof.
  revert i. induction l as [|x l IH]; intros i; simpl; [discriminate|].
  destruct (String.eqb x s); [trivial|].
  destruct (index_of s l) as [j|]; simpl; [|discriminate].
  intros [= <-]. now rewrite (IH j eq_refl).
Qed.

Lemma index_of_snoc (s : string) (l : list string) :
  index_of s l = None -> index_of s (l ++ [s]) = Some (length l).
Proof.
  induction l as [|x l IH]; simpl.
  - now rewrite String.eqb_refl.
  - destruct (String.eqb x s); [discriminate|].
    destruct (index_of s l); simpl; [discriminate|].
    intros _. now rewrite IH.
Qed.

Lemma intern_index (b : list string) (s : string) :
  index_of s (intern b s).2 = Some (intern b s).1.
Proof.
  unfold intern. destruct (index_of s b) eqn:E; simpl; [exact E|].
  now apply index_of_snoc.
Qed.

Lemma intern_keeps (b : list string) (s t : string) (i : nat) :
  index_of s b = Some i -> index_of s (intern b t).2 = Some i.
Proof.
  intros Hi. unfold intern. destruct (index_of t b); simpl; [exact Hi|].
  now apply index_of_app.
Qed.

Lemma intern_known (b : list string) (s : string) (i : nat) :
  index_of s b = Some i -> intern b s = (i, b).
Proof. intros Hi. unfold intern. now rewrite Hi. Qed.

Lemma grows_keeps (s : string) (i : nat) (b b' : list string) :
  rtc (fun b1 b2 => exists t, (intern b1 t).2 = b2) b b' ->
  index_of s b = Some i -> index_of s b' = Some i.
Proof.
  induction 1 as [|b1 b2 b3 [t <-] _ IH]; [trivial|].
  intros Hi. apply IH. now apply intern_keeps.
Qed.

Lemma intern_stable (b : list string) (s : string) (b' : list string) :
  rtc (fun b1 b2 => exists t, (intern b1 t).2 = b2) (intern b s).2 b' ->
  (intern b' s).1 = (intern b s).1.
Proof.
  intros Hg.
  now rewrite (intern_known b' s _ (grows_keeps _ _ _ _ Hg (intern_index b s))).
Qed.

End ListBankFacts.

(** The list bank with integer handles, [-1] being the unknown command. *)
Definition listStringBank : StringBank.
Proof.
  refine {| stringBank := list string; stringID := Z;
            UnknownCommand := -1;
            stringIDByString := fun b s =>
              (Z.of_nat (ListBank.intern b s).1, (ListBank.intern b s).2) |}.
  intros b s b' Hg. simpl in *. f_equal.
  now apply ListBankFacts.intern_stable.
Defined.

(** *** Example events and registries *)
Module Examples.
#[local] Existing Instance int64Types.
#[local] Existing Instance listStringBank.

Definition event (index : Z) (name : string) (cpu : Z) (clipped : bool)
    (text : list (string * string)) (number : list (string * Z))
    : trace.Event :=
  {| trace.Index := index; trace.Name := name; trace.CPU := cpu;
     trace.Timestamp := 1000 + index; trace.Clipped := clipped;
     trace.TextProperties := list_to_map text;
     trace.NumberProperties := list_to_map number |}.

Definition switchEvent : trace.Event :=
  event 7 "sched_switch" 2 false
    [("next_comm", "a"); ("prev_comm", "b")]
    [("next_pid", 5); ("prev_pid", 7); ("prev_state", 0)].

Definition migrateEvent : trace.Event :=
  event 3 "sched_migrate_task" 0 false
    [("comm", "x")]
    [("pid", 42); ("orig_cpu", 1); ("dest_cpu", 3); ("prio", 10)].

(** A wakeup without its optional [comm] and [prio]. *)
Definition wakeupEvent : trace.Event :=
  event 4 "sched_wakeup" 1 false [] [("pid", 9); ("target_cpu", 4)].

(** A migration that lacks [orig_cpu] and [dest_cpu]. *)
Definition brokenMigrateEvent : trace.Event :=
  event 5 "sched_migrate_task" 0 false [("comm", "x")] [("pid", 42)].

(** A migration that lacks only [dest_cpu]. *)
Definition truncatedMigrateEvent : trace.Event :=
  event 6 "sched_migrate_task" 0 false []
    [("pid", 42); ("orig_cpu", 1)].

(** A clipped migration that lacks every field. *)
Definition clippedEvent : trace.Event :=
  event 8 "sched_migrate_task" 0 true [] [].

Definition exitEvent : trace.Event :=
  event 9 "sched_process_exit" 0 false [("comm", "x")] [("pid", 42)].

(** A list bank holding [texts]. *)
Definition bank (texts : list string) : stringBank := texts.

Definition defaultRegistry : eventLoader :=
  {| elStringBank := []; loaders := DefaultEventLoaders |}.

Definition switchOnlyRegistry : eventLoader :=
  {| elStringBank := []; loaders := SwitchOnlyLoaders |}.

(** A loader that is not a function of the event alone: it consults
    state that outlives the call, here the shared bank, and emits a
    transition only the first time it runs. *)
Definition LoadOnce (ev : trace.Event) (ttsb : ThreadTransitionSetBuilder)
    : option error * ThreadTransitionSetBuilder :=
  match ttsbStringBank ttsb with
  | [] =>
      let ttsb :=
        ttsb |> WithTransition (trace.Index ev) (trace.Timestamp ev)
                  (toPID 1)
             |> WithPrevCommand "once" in
      (None, ttsb)
  | _ :: _ => (None, ttsb)
  end.

Definition onceRegistry : eventLoader :=
  {| elStringBank := []; loaders := <["sched_switch" := LoadOnce]> ∅ |}.

End Examples.

(** * Properties *)

Section BuilderFacts.
Context `{SchedTypes} `{StringBank}.

Lemma number_at_Some (m : gmap string Z) (k : string) (v : Z) :
  m !! k = Some v -> number_at m k = (v, true).
Proof. intros E. unfold number_at. now rewrite E. Qed.

Lemma number_at_None (m : gmap string Z) (k : string) :
  m !! k = None -> number_at m k = (0, false).
Proof. intros E. unfold number_at. now rewrite E. Qed.

Lemma text_at_None (m : gmap string string) (k : string) :
  m !! k = None -> text_at m k = EmptyString.
Proof. intros E. unfold text_at. now rewrite E. Qed.

(** The transition being configured is the last one of the list. *)
Lemma configure_snoc (f : threadTransition -> threadTransition)
    (l : list threadTransition) (t : threadTransition) :
  configure f (l ++ [t]) = l ++ [f t].
Proof.
  induction l as [|x l IH]; [reflexivity|].
  simpl. rewrite IH. now destruct l.
Qed.

Lemma withCurrent_snoc f (sb : stringBank) l t :
  withCurrent f {| ttsbStringBank := sb; tts := l ++ [t] |}
  = {| ttsbStringBank := sb; tts := l ++ [f t] |}.
Proof. unfold withCurrent. simpl. now rewrite configure_snoc. Qed.

Lemma withCommand_snoc set (s : string) (sb : stringBank) l t :
  withCommand set s {| ttsbStringBank := sb; tts := l ++ [t] |}
  = {| ttsbStringBank := (stringIDByString sb s).2;
       tts := l ++ [set (stringIDByString sb s).1 t] |}.
Proof.
  unfold withCommand. simpl.
  destruct (stringIDByString sb s) as [id sb']. simpl.
  now rewrite configure_snoc.
Qed.

Lemma WithTransition_snoc (i ts : Z) (p : PID) (sb : stringBank) l :
  WithTransition i ts p {| ttsbStringBank := sb; tts := l |}
  = {| ttsbStringBank := sb; tts := l ++ [newThreadTransition i ts p] |}.
Proof. reflexivity. Qed.

(** Interning the same text twice in a row returns one handle. *)
Lemma stringIDByString_twice (sb : stringBank) (s : string) :
  (stringIDByString (stringIDByString sb s).2 s).1
  = (stringIDByString sb s).1.
Proof. apply stringIDByString_stable. apply rtc_refl. Qed.

Lemma text_at_insert_absent (m : gmap string string) (k k' : string) :
  m !! k = None -> text_at (<[k := EmptyString]> m) k' = text_at m k'.
Proof.
  intros E. unfold text_at. destruct (decide (k = k')) as [<-|Hne].
  - now rewrite lookup_insert_eq, E.
  - now rewrite lookup_insert_ne.
Qed.

Lemma grows_step (b : stringBank) (t : string) :
  grows b (stringIDByString b t).2.
Proof. apply rtc_once. now exists t. Qed.

Lemma grows_trans (b1 b2 b3 : stringBank) :
  grows b1 b2 -> grows b2 b3 -> grows b1 b3.
Proof. apply rtc_trans. Qed.

(** A handle, once given, is the text's handle in every later bank. *)
Lemma handle_of_intern (b : stringBank) (s : string) (b' : stringBank) :
  grows (stringIDByString b s).2 b' ->
  handle_of b' s (stringIDByString b s).1.
Proof.
  intros Hg b'' Hg'. apply stringIDByString_stable.
  exact (grows_trans _ _ _ Hg Hg').
Qed.

End BuilderFacts.

(** Prove that a bank written as internings on top of another grows
    from it. *)
Ltac solve_grows :=
  repeat first [ apply rtc_refl
               | eapply grows_trans; [|apply grows_step] ].

(** Unfold a chain of builder calls on an explicit builder. *)
Ltac run_chain :=
  unfold WithPrevCommand, WithNextCommand, WithPrevPriority,
    WithNextPriority, WithPrevCPU, WithNextCPU, WithPrevState,
    WithNextState, OnForwardsCPUConflict, OnBackwardsCPUConflict,
    OnForwardsStateConflict, OnBackwardsStateConflict;
  repeat first [ rewrite WithTransition_snoc
               | rewrite withCurrent_snoc
               | rewrite withCommand_snoc ].

Section Interpreters.
Context `{SchedTypes} `{StringBank}.

(** C1: on a sched_switch event that carries next_pid, prev_pid and
    prev_state, [LoadSchedSwitch] returns no error and adds exactly two
    transitions to the builder, both with the event's index and
    timestamp.  The first is for next_pid: command and priority are the
    same before and after, both CPUs are the reporting CPU, the next
    state is Running.  The second is for prev_pid: command and priority
    are the same before and after, both CPUs are the reporting CPU, the
    previous state is Running, and the next state is Waiting when
    prev_state is 0 and Sleeping otherwise. *)
Theorem LoadSchedSwitch_two_transitions
    (ev : trace.Event) (ttsb : ThreadTransitionSetBuilder)
    (next_pid prev_pid prev_state : Z) :
  trace.NumberProperties ev !! "next_pid" = Some next_pid ->
  trace.NumberProperties ev !! "prev_pid" = Some prev_pid ->
  trace.NumberProperties ev !! "prev_state" = Some prev_state ->
  exists (t1 t2 : threadTransition) (sb : stringBank),
    LoadSchedSwitch ev ttsb
    = (None, {| ttsbStringBank := sb; tts := tts ttsb ++ [t1; t2] |})
    /\ (EventIndex t1 = trace.Index ev
        /\ Timestamp t1 = trace.Timestamp ev
        /\ Pid t1 = toPID next_pid
        /\ PrevCommand t1 = NextCommand t1
        /\ PrevPriority t1 = NextPriority t1
        /\ PrevCPU t1 = toCPUID (trace.CPU ev)
        /\ NextCPU t1 = toCPUID (trace.CPU ev)
        /\ NextState t1 = RunningState)
    /\ (EventIndex t2 = trace.Index ev
        /\ Timestamp t2 = trace.Timestamp ev
        /\ Pid t2 = toPID prev_pid
        /\ PrevCommand t2 = NextCommand t2
        /\ PrevPriority t2 = NextPriority t2
        /\ PrevCPU t2 = toCPUID (trace.CPU ev)
        /\ NextCPU t2 = toCPUID (trace.CPU ev)
        /\ PrevState t2 = RunningState
        /\ NextState t2 = (if prev_state =? 0 then WaitingState
                           else SleepingState)).
Proof.
  intros Hn Hp Hs. destruct ttsb as [sb l].
  unfold LoadSchedSwitch, LoadSwitchData.
  rewrite (number_at_Some _ _ _ Hn), (number_at_Some _ _ _ Hp),
    (number_at_Some _ _ _ Hs).
  destruct (number_at _ "next_prio") as [nextPrio okn].
  destruct (number_at _ "prev_prio") as [prevPrio okp].
  cbn [negb NextPID PrevPID NextComm PrevComm SwitchNextPriority
       SwitchPrevPriority SwitchPrevState].
  run_chain. rewrite <- app_assoc.
  do 3 eexists. split; [reflexivity|].
  cbn. rewrite !stringIDByString_twice.
  destruct (prev_state =? 0); repeat split.
Qed.

(** C3: on a sched_wakeup or sched_wakeup_new event that carries pid
    and target_cpu, [LoadSchedWakeup] returns no error and adds exactly
    one transition, for that PID: both CPUs are target_cpu, the previous
    state is Unknown, the next state is Waiting, the policy is Drop on
    the forwards CPU, backwards CPU and forwards state directions, and
    the backwards state direction keeps the default Assert. *)
Theorem LoadSchedWakeup_one_transition
    (ev : trace.Event) (ttsb : ThreadTransitionSetBuilder)
    (pid target_cpu : Z) :
  trace.NumberProperties ev !! "pid" = Some pid ->
  trace.NumberProperties ev !! "target_cpu" = Some target_cpu ->
  exists (t : threadTransition) (sb : stringBank),
    LoadSchedWakeup ev ttsb
    = (None, {| ttsbStringBank := sb; tts := tts ttsb ++ [t] |})
    /\ EventIndex t = trace.Index ev
    /\ Timestamp t = trace.Timestamp ev
    /\ Pid t = toPID pid
    /\ PrevCPU t = toCPUID target_cpu
    /\ NextCPU t = toCPUID target_cpu
    /\ PrevState t = UnknownState
    /\ NextState t = WaitingState
    /\ onForwardsCPUConflict t = Drop
    /\ onBackwardsCPUConflict t = Drop
    /\ onForwardsStateConflict t = Drop
    /\ onBackwardsStateConflict t = Assert.
Proof.
  intros Hp Hc. destruct ttsb as [sb l].
  unfold LoadSchedWakeup.
  rewrite (number_at_Some _ _ _ Hp), (number_at_Some _ _ _ Hc).
  destruct (number_at _ "prio") as [prio ok].
  cbn [negb]. run_chain.
  do 2 eexists. split; [reflexivity|].
  cbn. repeat split.
Qed.

(** C4: on a sched_migrate_task event that carries pid, orig_cpu and
    dest_cpu, [LoadSchedMigrateTask] returns no error and adds exactly
    one transition, for that PID: the previous CPU is orig_cpu and the
    next CPU is dest_cpu, command and priority are the same before and
    after, the priority is Unknown when prio is absent, the state is
    Unknown before and after, and all four policies are the default
    Assert. *)
Theorem LoadSchedMigrateTask_one_transition
    (ev : trace.Event) (ttsb : ThreadTransitionSetBuilder)
    (pid orig_cpu dest_cpu : Z) :
  trace.NumberProperties ev !! "pid" = Some pid ->
  trace.NumberProperties ev !! "orig_cpu" = Some orig_cpu ->
  trace.NumberProperties ev !! "dest_cpu" = Some dest_cpu ->
  exists (t : threadTransition) (sb : stringBank),
    LoadSchedMigrateTask ev ttsb
    = (None, {| ttsbStringBank := sb; tts := tts ttsb ++ [t] |})
    /\ EventIndex t = trace.Index ev
    /\ Timestamp t = trace.Timestamp ev
    /\ Pid t = toPID pid
    /\ PrevCPU t = toCPUID orig_cpu
    /\ NextCPU t = toCPUID dest_cpu
    /\ PrevCommand t = NextCommand t
    /\ PrevPriority t = NextPriority t
    /\ (trace.NumberProperties ev !! "prio" = None ->
        PrevPriority t = UnknownPriority)
    /\ PrevState t = UnknownState
    /\ NextState t = UnknownState
    /\ onForwardsCPUConflict t = Assert
    /\ onBackwardsCPUConflict t = Assert
    /\ onForwardsStateConflict t = Assert
    /\ onBackwardsStateConflict t = Assert.
Proof.
  intros Hp Ho Hd. destruct ttsb as [sb l].
  unfold LoadSchedMigrateTask.
  rewrite (number_at_Some _ _ _ Hp), (number_at_Some _ _ _ Ho),
    (number_at_Some _ _ _ Hd).
  unfold number_at at 1.
  destruct (trace.NumberProperties ev !! "prio") as [prio|].
  all: cbn [negb]; run_chain.
  all: do 2 eexists; split; [reflexivity|].
  all: cbn; rewrite stringIDByString_twice; repeat split.
  discriminate.
Qed.

End Interpreters.

Section Registry.
Context `{SchedTypes} `{StringBank}.

Lemma firstMissing_Some (R : list string) (m : gmap string Z) (f : string) :
  firstMissing R m = Some f -> In f R /\ m !! f = None.
Proof.
  induction R as [|g R IH]; simpl; [discriminate|].
  destruct (m !! g) eqn:E.
  - intros Hf. destruct (IH Hf). auto.
  - intros [= <-]. auto.
Qed.

Lemma firstMissing_None (R : list string) (m : gmap string Z) :
  firstMissing R m = None -> forall f, In f R -> is_Some (m !! f).
Proof.
  induction R as [|g R IH]; simpl; [intros _ f []|].
  destruct (m !! g) eqn:E; [|discriminate].
  intros Hn f [<-|Hf]; [rewrite E; eauto|auto].
Qed.

Lemma firstMissing_only (R : list string) (m : gmap string Z) (f : string) :
  In f R -> m !! f = None ->
  (forall g, In g R -> g <> f -> is_Some (m !! g)) ->
  firstMissing R m = Some f.
Proof.
  induction R as [|g R IH]; simpl; [intros []|].
  intros Hin Hf Hothers. destruct (m !! g) eqn:E.
  - destruct Hin as [->|Hin]; [congruence|].
    apply IH; auto.
  - destruct (string_dec g f) as [->|Hne]; [reflexivity|].
    destruct (Hothers g (or_introl eq_refl) Hne) as [v Hv]. congruence.
Qed.

(** [LoadSwitchData] fails on the first required field that is missing
    and returns the data otherwise. *)
Lemma LoadSwitchData_cases (ev : trace.Event) :
  match firstMissing ["next_pid"; "prev_pid"; "prev_state"]
          (trace.NumberProperties ev) with
  | Some f => LoadSwitchData ev = (None, Some (MissingFieldError f ev))
  | None => exists sd, LoadSwitchData ev = (Some sd, None)
  end.
Proof.
  unfold LoadSwitchData, firstMissing, number_at.
  destruct (trace.NumberProperties ev !! "next_pid"); [|reflexivity].
  destruct (trace.NumberProperties ev !! "next_prio");
    (destruct (trace.NumberProperties ev !! "prev_pid"); [|reflexivity]);
    (destruct (trace.NumberProperties ev !! "prev_prio"));
    (destruct (trace.NumberProperties ev !! "prev_state"); [|reflexivity]);
    eexists; reflexivity.
Qed.

(** An interpreter fails exactly when a field it requires is missing,
    with the error for the first such field, and then leaves the builder
    as it was. *)
Lemma requires_error (L : Loader) (R : list string) :
  requires L R ->
  forall (ev : trace.Event) (ttsb : ThreadTransitionSetBuilder),
    match firstMissing R (trace.NumberProperties ev) with
    | Some f => L ev ttsb = (Some (MissingFieldError f ev), ttsb)
    | None => (L ev ttsb).1 = None
    end.
Proof.
  intros [] ev ttsb.
  - unfold LoadSchedMigrateTask, firstMissing, number_at.
    destruct (trace.NumberProperties ev !! "pid"); [|reflexivity].
    destruct (trace.NumberProperties ev !! "prio");
      (destruct (trace.NumberProperties ev !! "orig_cpu"); [|reflexivity]);
      (destruct (trace.NumberProperties ev !! "dest_cpu"); [|reflexivity]);
      reflexivity.
  - unfold LoadSchedSwitch.
    pose proof (LoadSwitchData_cases ev) as Hsd.
    destruct (firstMissing _ _) as [f|].
    + now rewrite Hsd.
    + destruct Hsd as [sd ->]. reflexivity.
  - unfold LoadSchedWakeup, firstMissing, number_at.
    destruct (trace.NumberProperties ev !! "pid"); [|reflexivity].
    destruct (trace.NumberProperties ev !! "prio");
      (destruct (trace.NumberProperties ev !! "target_cpu"); [|reflexivity]);
      reflexivity.
  - unfold LoadSchedSwitchWithSynthetics.
    pose proof (LoadSwitchData_cases ev) as Hsd.
    destruct (firstMissing _ _) as [f|].
    + now rewrite Hsd.
    + destruct Hsd as [sd ->]. reflexivity.
Qed.

(** C5, as amended: take a non-clipped event whose tracepoint is
    registered with one of the package's interpreters.  If the event
    lacks a numeric field the interpreter requires, [threadTransitions]
    fails with the missing-field error of a required field the event
    lacks (the first one in the order the interpreter reads them, hence
    that very field when it is the only one missing), carrying the
    event's index; the error is the interpreter's own, no transition
    comes with it and the registry is left as it was.  Conversely every
    error that [threadTransitions] returns for such an event is the
    missing-field error of a required field the event lacks. *)
Theorem threadTransitions_missing_field
    (el : eventLoader) (ev : trace.Event) (L : Loader) (R : list string) :
  trace.Clipped ev = false ->
  loaders el !! trace.Name ev = Some L ->
  requires L R ->
  (forall f, In f R -> trace.NumberProperties ev !! f = None ->
     exists f',
       firstMissing R (trace.NumberProperties ev) = Some f'
       /\ In f' R
       /\ trace.NumberProperties ev !! f' = None
       /\ ((forall g, In g R -> g <> f ->
              is_Some (trace.NumberProperties ev !! g)) -> f' = f)
       /\ (L ev (newThreadTransitionSetBuilder (elStringBank el))).1
          = Some (MissingFieldError f' ev)
       /\ threadTransitions el ev
          = ([], Some (MissingFieldError f' ev), el))
  /\ (forall tts err el',
        threadTransitions el ev = (tts, Some err, el') ->
        exists f,
          In f R
          /\ trace.NumberProperties ev !! f = None
          /\ err = MissingFieldError f ev
          /\ tts = [] /\ el' = el).
Proof.
  intros Hclip Hreg Hreq.
  pose proof (requires_error L R Hreq ev
                (newThreadTransitionSetBuilder (elStringBank el))) as HL.
  unfold threadTransitions. rewrite Hclip, Hreg.
  destruct (firstMissing R (trace.NumberProperties ev)) as [f'|] eqn:Hfm.
  - destruct (firstMissing_Some _ _ _ Hfm) as [Hin Hnone].
    rewrite HL. destruct el as [sb ls]. simpl. split.
    + intros f Hf Hfnone. exists f'. repeat split; auto.
      intros Hothers.
      rewrite (firstMissing_only R _ f Hf Hfnone Hothers) in Hfm.
      congruence.
    + intros tts err el' [= <- <- <-]. exists f'. auto.
  - split.
    + intros f Hf Hfnone.
      destruct (firstMissing_None _ _ Hfm f Hf) as [v Hv]. congruence.
    + destruct (L ev _) as [[e|] b]; [discriminate HL|].
      intros tts err el' [=].
Qed.

(** C6: for a clipped event [threadTransitions] returns no transition
    and no error, whatever the registry, the tracepoint name and the
    event's fields are. *)
Theorem threadTransitions_clipped (el : eventLoader) (ev : trace.Event) :
  trace.Clipped ev = true ->
  threadTransitions el ev = ([], None, el).
Proof. intros Hclip. unfold threadTransitions. now rewrite Hclip. Qed.

(** C7: for a non-clipped event whose tracepoint name has no loader in
    the registry, [threadTransitions] returns no transition and no
    error, whatever the event's fields are. *)
Theorem threadTransitions_unregistered (el : eventLoader) (ev : trace.Event) :
  trace.Clipped ev = false ->
  loaders el !! trace.Name ev = None ->
  threadTransitions el ev = ([], None, el).
Proof.
  intros Hclip Hreg. unfold threadTransitions. now rewrite Hclip, Hreg.
Qed.

(** C8: [newEventLoader] on an empty mapping returns no registry and a
    configuration error; on a non-empty mapping it returns no error and
    a registry that holds exactly that mapping and the given bank. *)
Theorem newEventLoader_empty_or_built
    (ls : gmap string Loader) (sb : stringBank) :
  newEventLoader ∅ sb
  = (None,
     Some (errors_New
             "an empty eventLoader cannot generate threadTransitions"))
  /\ (ls <> ∅ ->
      newEventLoader ls sb
      = (Some {| elStringBank := sb; loaders := ls |}, None)).
Proof.
  split; [reflexivity|].
  intros Hne. unfold newEventLoader.
  destruct (Nat.eqb (size ls) 0) eqn:E; [|reflexivity].
  apply Nat.eqb_eq, map_size_empty_iff in E. contradiction.
Qed.

End Registry.

Section Synthetics.
Context `{SchedTypes} `{StringBank}.

(** C2, as amended: whenever [LoadSchedSwitch] succeeds, adding [t1]
    and [t2] with the default Assert policies, so does
    [LoadSchedSwitchWithSynthetics], leaving the bank in the same state
    and adding the same two transitions with all four policies set to
    InsertSynthetic, and with the previous state of the first one (the
    switched-in thread) set to Waiting where [LoadSchedSwitch] leaves it
    Unknown. *)
Theorem LoadSchedSwitchWithSynthetics_refines
    (ev : trace.Event) (ttsb ttsb' : ThreadTransitionSetBuilder) :
  LoadSchedSwitch ev ttsb = (None, ttsb') ->
  exists t1 t2 : threadTransition,
    tts ttsb' = tts ttsb ++ [t1; t2]
    /\ hasPolicies Assert t1 /\ hasPolicies Assert t2
    /\ PrevState t1 = UnknownState
    /\ LoadSchedSwitchWithSynthetics ev ttsb
       = (None,
          {| ttsbStringBank := ttsbStringBank ttsb';
             tts := tts ttsb
                    ++ [setPrevState WaitingState
                          (withPolicies InsertSynthetic t1);
                        withPolicies InsertSynthetic t2] |}).
Proof.
  unfold LoadSchedSwitch, LoadSchedSwitchWithSynthetics.
  pose proof (LoadSwitchData_cases ev) as Hsd.
  destruct (firstMissing _ _) as [f|].
  { rewrite Hsd. discriminate. }
  destruct Hsd as [sd ->]. destruct ttsb as [sb l].
  intros [= <-]. run_chain. rewrite <- !app_assoc. cbn [tts app].
  do 2 eexists. split; [reflexivity|].
  cbn. repeat split.
Qed.

End Synthetics.

Section AbsentText.
Context `{SchedTypes} `{StringBank}.

(** An absent text field reads as the empty string, so setting it to
    the empty string changes nothing an interpreter does. *)
Lemma withText_empty (L : Loader) (R : list string) (k : string)
    (ev : trace.Event) (ttsb : ThreadTransitionSetBuilder) :
  requires L R ->
  trace.TextProperties ev !! k = None ->
  L (withText k "" ev) ttsb = L ev ttsb.
Proof.
  intros [] Hk.
  all: unfold LoadSchedMigrateTask, LoadSchedWakeup, LoadSchedSwitch,
         LoadSchedSwitchWithSynthetics, LoadSwitchData, withText.
  all: cbn [trace.NumberProperties trace.TextProperties trace.Index
            trace.Timestamp trace.CPU].
  all: now rewrite !(text_at_insert_absent _ _ _ Hk).
Qed.

(** C10: for every interpreter of the package, an event in which a text
    field is absent is interpreted exactly as the same event with that
    field present and empty.  So an event that carries its required
    numeric fields is interpreted without error also when its optional
    text field is absent, and then the command of the affected
    transition, before and after, is the handle of the empty string.  An
    absent priority field, in contrast, gives the Unknown priority. *)
Theorem absent_command_is_empty_string
    (ev : trace.Event) (ttsb : ThreadTransitionSetBuilder) :
  let N := trace.NumberProperties ev in
  let T := trace.TextProperties ev in
  (forall (L : Loader) (R : list string) (k : string),
     requires L R -> T !! k = None ->
     L (withText k "" ev) ttsb = L ev ttsb)
  /\ (forall pid orig_cpu dest_cpu : Z,
        N !! "pid" = Some pid -> N !! "orig_cpu" = Some orig_cpu ->
        N !! "dest_cpu" = Some dest_cpu ->
        exists (t : threadTransition) (sb : stringBank),
          LoadSchedMigrateTask ev ttsb
          = (None, {| ttsbStringBank := sb; tts := tts ttsb ++ [t] |})
          /\ (T !! "comm" = None -> emptyCommand sb t)
          /\ (N !! "prio" = None -> unknownPriority t))
  /\ (forall pid target_cpu : Z,
        N !! "pid" = Some pid -> N !! "target_cpu" = Some target_cpu ->
        exists (t : threadTransition) (sb : stringBank),
          LoadSchedWakeup ev ttsb
          = (None, {| ttsbStringBank := sb; tts := tts ttsb ++ [t] |})
          /\ (T !! "comm" = None -> emptyCommand sb t)
          /\ (N !! "prio" = None -> unknownPriority t))
  /\ (forall next_pid prev_pid prev_state : Z,
        N !! "next_pid" = Some next_pid ->
        N !! "prev_pid" = Some prev_pid ->
        N !! "prev_state" = Some prev_state ->
        forall L : Loader,
          L = LoadSchedSwitch \/ L = LoadSchedSwitchWithSynthetics ->
          exists (t1 t2 : threadTransition) (sb : stringBank),
            L ev ttsb
            = (None,
               {| ttsbStringBank := sb; tts := tts ttsb ++ [t1; t2] |})
            /\ (T !! "next_comm" = None -> emptyCommand sb t1)
            /\ (T !! "prev_comm" = None -> emptyCommand sb t2)
            /\ (N !! "next_prio" = None -> unknownPriority t1)
            /\ (N !! "prev_prio" = None -> unknownPriority t2)).
Proof.
  intros N T. subst N T.
  split; [intros L R k HR Hk; exact (withText_empty L R k ev ttsb HR Hk)|].
  destruct ttsb as [sb l].
  split; [|split].
  - intros pid orig_cpu dest_cpu Hp Ho Hd.
    unfold LoadSchedMigrateTask, number_at.
    rewrite Hp, Ho, Hd.
    destruct (trace.NumberProperties ev !! "prio") as [prio|].
    all: cbn [negb]; run_chain.
    all: do 2 eexists; split; [reflexivity|].
    all: split; [|try discriminate; intros _; split; reflexivity].
    all: intros Hc; rewrite !(text_at_None _ _ Hc).
    all: split; cbn; apply handle_of_intern; solve_grows.
  - intros pid target_cpu Hp Hc.
    unfold LoadSchedWakeup, number_at.
    rewrite Hp, Hc.
    destruct (trace.NumberProperties ev !! "prio") as [prio|].
    all: cbn [negb]; run_chain.
    all: do 2 eexists; split; [reflexivity|].
    all: split; [|try discriminate; intros _; split; reflexivity].
    all: intros Ht; rewrite !(text_at_None _ _ Ht).
    all: split; cbn; apply handle_of_intern; solve_grows.
  - intros next_pid prev_pid prev_state Hn Hp Hs L HL.
    destruct HL as [-> | ->].
    all: unfold LoadSchedSwitch, LoadSchedSwitchWithSynthetics,
           LoadSwitchData, number_at.
    all: rewrite Hn, Hp, Hs.
    all: destruct (trace.NumberProperties ev !! "next_prio") as [np|];
           destruct (trace.NumberProperties ev !! "prev_prio") as [pp|].
    all: cbn [negb NextPID PrevPID NextComm PrevComm SwitchNextPriority
              SwitchPrevPriority SwitchPrevState].
    all: run_chain; rewrite <- !app_assoc; cbn [tts app].
    all: do 3 eexists; split; [reflexivity|].
    all: repeat match goal with
           | |- _ /\ _ => split
           | |- Some _ = None -> _ => discriminate
           | |- None = None -> unknownPriority _ =>
               intros _; split; reflexivity
           end.
    all: intros Hk; rewrite !(text_at_None _ _ Hk).
    all: split; cbn; apply handle_of_intern; solve_grows.
Qed.

End AbsentText.

Section Idempotence.
Context `{SchedTypes} `{StringBank}.

Lemma runCall_grows (c : call) (b : ThreadTransitionSetBuilder) :
  grows (ttsbStringBank b) (ttsbStringBank (runCall c b)).
Proof.
  destruct c; try apply rtc_refl.
  all: cbn; unfold WithPrevCommand, WithNextCommand, withCommand.
  all: pose proof (grows_step (ttsbStringBank b) command) as Hg.
  all: now destruct (stringIDByString (ttsbStringBank b) command).
Qed.

Lemma runCalls_grows (cs : list call) (b : ThreadTransitionSetBuilder) :
  grows (ttsbStringBank b) (ttsbStringBank (runCalls cs b)).
Proof.
  revert b. induction cs as [|c cs IH]; intros b; [apply rtc_refl|].
  exact (grows_trans _ _ _ (runCall_grows c b) (IH _)).
Qed.

(** A call run again on a bank grown from the one it left stores the
    same transitions. *)
Lemma runCall_replay (c : call) (sb sb' : stringBank)
    (l : list threadTransition) :
  grows (ttsbStringBank (runCall c {| ttsbStringBank := sb; tts := l |}))
        sb' ->
  tts (runCall c {| ttsbStringBank := sb'; tts := l |})
  = tts (runCall c {| ttsbStringBank := sb; tts := l |}).
Proof.
  destruct c; try reflexivity.
  all: cbn; unfold WithPrevCommand, WithNextCommand, withCommand; cbn.
  all: intros Hg.
  all: pose proof (stringIDByString_stable sb command sb') as Hst.
  all: destruct (stringIDByString sb command) as [id sb1].
  all: destruct (stringIDByString sb' command) as [id' sb1'].
  all: cbn in *; now rewrite (Hst Hg).
Qed.

Lemma runCalls_replay (cs : list call) (sb sb' : stringBank)
    (l : list threadTransition) :
  grows (ttsbStringBank (runCalls cs {| ttsbStringBank := sb; tts := l |}))
        sb' ->
  tts (runCalls cs {| ttsbStringBank := sb'; tts := l |})
  = tts (runCalls cs {| ttsbStringBank := sb; tts := l |}).
Proof.
  revert sb sb' l. induction cs as [|c cs IH]; intros sb sb' l Hg;
    [reflexivity|].
  cbn [runCalls] in *.
  pose proof (runCalls_grows cs
                (runCall c {| ttsbStringBank := sb; tts := l |})) as Hcs.
  pose proof (runCall_replay c sb sb' l (grows_trans _ _ _ Hcs Hg)) as Hc.
  pose proof (runCall_grows c {| ttsbStringBank := sb'; tts := l |}) as Hc'.
  destruct (runCall c {| ttsbStringBank := sb; tts := l |}) as [sb1 l1].
  destruct (runCall c {| ttsbStringBank := sb'; tts := l |}) as [sb1' l1'].
  cbn in Hc, Hc', Hcs. subst l1'.
  apply IH. exact (grows_trans _ _ _ Hg Hc').
Qed.

(** C9, as amended: when every loader of the registry is a builder
    program, calling [threadTransitions] on an event and then again on
    the same event, with the registry as the first call left it,
    returns the same transitions and the same error. *)
Theorem threadTransitions_twice (el : eventLoader) (ev : trace.Event) :
  (forall (name : string) (L : Loader),
     loaders el !! name = Some L -> builderProgram L) ->
  (threadTransitions (threadTransitions el ev).2 ev).1
  = (threadTransitions el ev).1.
Proof.
  intros Hpure. unfold threadTransitions.
  destruct (trace.Clipped ev); [reflexivity|].
  destruct (loaders el !! trace.Name ev) as [L|] eqn:Hreg;
    cbn; [|now rewrite Hreg].
  destruct (Hpure _ _ Hreg ev) as (cs & err & HL).
  rewrite HL. destruct err as [e|]; cbn; rewrite Hreg, HL; cbn;
    [reflexivity|].
  unfold transitions, newThreadTransitionSetBuilder. f_equal.
  apply runCalls_replay, rtc_refl.
Qed.

End Idempotence.

Section PackageLoaders.
Context `{SchedTypes} `{StringBank}.

(** Every interpreter of the package is a builder program. *)
Lemma requires_builderProgram (L : Loader) (R : list string) :
  requires L R -> builderProgram L.
Proof.
  intros [] ev.
  - unfold LoadSchedMigrateTask, number_at.
    destruct (trace.NumberProperties ev !! "pid");
      [|exists [], (Some (MissingFieldError "pid" ev)); reflexivity].
    destruct (trace.NumberProperties ev !! "prio");
      (destruct (trace.NumberProperties ev !! "orig_cpu");
       [|exists [], (Some (MissingFieldError "orig_cpu" ev)); reflexivity]);
      (destruct (trace.NumberProperties ev !! "dest_cpu");
       [|exists [], (Some (MissingFieldError "dest_cpu" ev)); reflexivity]).
    all: eexists [CallWithTransition _ _ _; CallWithPrevCommand _;
                  CallWithNextCommand _; CallWithPrevPriority _;
                  CallWithNextPriority _; CallWithPrevCPU _;
                  CallWithNextCPU _], None.
    all: intros ttsb; cbn [runCalls runCall]; reflexivity.
  - unfold LoadSchedSwitch.
    pose proof (LoadSwitchData_cases ev) as Hsd.
    destruct (firstMissing _ _) as [f|].
    + rewrite Hsd. exists [], (Some (MissingFieldError f ev)). reflexivity.
    + destruct Hsd as [sd ->].
      eexists [CallWithTransition _ _ _; CallWithPrevCommand _;
               CallWithNextCommand _; CallWithPrevPriority _;
               CallWithNextPriority _; CallWithPrevCPU _;
               CallWithNextCPU _; CallWithNextState _;
               CallWithTransition _ _ _; CallWithPrevCommand _;
               CallWithNextCommand _; CallWithPrevPriority _;
               CallWithNextPriority _; CallWithPrevCPU _;
               CallWithNextCPU _; CallWithPrevState _;
               CallWithNextState _], None.
      intros ttsb; cbn [runCalls runCall]; reflexivity.
  - unfold LoadSchedWakeup, number_at.
    destruct (trace.NumberProperties ev !! "pid");
      [|exists [], (Some (MissingFieldError "pid" ev)); reflexivity].
    destruct (trace.NumberProperties ev !! "prio");
      (destruct (trace.NumberProperties ev !! "target_cpu");
       [|exists [], (Some (MissingFieldError "target_cpu" ev));
         reflexivity]).
    all: eexists [CallWithTransition _ _ _; CallWithPrevCommand _;
                  CallWithNextCommand _; CallWithPrevPriority _;
                  CallWithNextPriority _; CallWithPrevCPU _;
                  CallWithNextCPU _; CallWithNextState _;
                  CallOnBackwardsCPUConflict _;
                  CallOnForwardsCPUConflict _;
                  CallOnForwardsStateConflict _], None.
    all: intros ttsb; cbn [runCalls runCall]; reflexivity.
  - unfold LoadSchedSwitchWithSynthetics.
    pose proof (LoadSwitchData_cases ev) as Hsd.
    destruct (firstMissing _ _) as [f|].
    + rewrite Hsd. exists [], (Some (MissingFieldError f ev)). reflexivity.
    + destruct Hsd as [sd ->].
      eexists [CallWithTransition _ _ _; CallWithPrevCommand _;
               CallWithNextCommand _; CallWithPrevPriority _;
               CallWithNextPriority _; CallWithPrevCPU _;
               CallWithNextCPU _; CallWithPrevState _;
               CallWithNextState _;
               CallOnForwardsCPUConflict _; CallOnBackwardsCPUConflict _;
               CallOnForwardsStateConflict _;
               CallOnBackwardsStateConflict _;
               CallWithTransition _ _ _; CallWithPrevCommand _;
               CallWithNextCommand _; CallWithPrevPriority _;
               CallWithNextPriority _; CallWithPrevCPU _;
               CallWithNextCPU _; CallWithPrevState _;
               CallWithNextState _;
               CallOnForwardsCPUConflict _; CallOnBackwardsCPUConflict _;
               CallOnForwardsStateConflict _;
               CallOnBackwardsStateConflict _], None.
      intros ttsb; cbn [runCalls runCall]; reflexivity.
Qed.

(** Both loader sets register interpreters of the package only. *)
Lemma DefaultEventLoaders_requires (name : string) (L : Loader) :
  DefaultEventLoaders !! name = Some L -> exists R, requires L R.
Proof.
  unfold DefaultEventLoaders. intros Hl.
  repeat (apply lookup_insert_Some in Hl;
          destruct Hl as [[_ <-] | [_ Hl]]; [eexists; constructor|]).
  rewrite lookup_empty in Hl. discriminate.
Qed.

Lemma SwitchOnlyLoaders_requires (name : string) (L : Loader) :
  SwitchOnlyLoaders !! name = Some L -> exists R, requires L R.
Proof.
  unfold SwitchOnlyLoaders. intros Hl.
  apply lookup_insert_Some in Hl.
  destruct Hl as [[_ <-] | [_ Hl]]; [eexists; constructor|].
  rewrite lookup_empty in Hl. discriminate.
Qed.

End PackageLoaders.

(** * The properties on the example events *)
Module Runs.
Import Examples.
#[local] Existing Instance int64Types.
#[local] Existing Instance listStringBank.

Lemma LoadSchedSwitch_two_transitions_witness :
  exists (t1 t2 : threadTransition) (sb : stringBank),
    LoadSchedSwitch switchEvent (newThreadTransitionSetBuilder (bank []))
    = (None, {| ttsbStringBank := sb; tts := [t1; t2] |})
    /\ (EventIndex t1 = 7 /\ Timestamp t1 = 1007 /\ Pid t1 = 5
        /\ PrevCommand t1 = NextCommand t1
        /\ PrevPriority t1 = NextPriority t1
        /\ PrevCPU t1 = 2 /\ NextCPU t1 = 2
        /\ NextState t1 = RunningState)
    /\ (EventIndex t2 = 7 /\ Timestamp t2 = 1007 /\ Pid t2 = 7
        /\ PrevCommand t2 = NextCommand t2
        /\ PrevPriority t2 = NextPriority t2
        /\ PrevCPU t2 = 2 /\ NextCPU t2 = 2
        /\ PrevState t2 = RunningState
        /\ NextState t2 = WaitingState).
Proof.
  exact (LoadSchedSwitch_two_transitions switchEvent
           (newThreadTransitionSetBuilder (bank [])) 5 7 0
           ltac:(vm_compute; reflexivity) ltac:(vm_compute; reflexivity)
           ltac:(vm_compute; reflexivity)).
Defined.

(** C2: on the example switch event [LoadSchedSwitch] succeeds, but the
    transitions of [LoadSchedSwitchWithSynthetics] are not those of
    [LoadSchedSwitch] with only the policies changed: the first has
    previous state Waiting instead of Unknown. *)
Lemma synthetics_change_more_than_policies :
  exists b1 : ThreadTransitionSetBuilder,
    LoadSchedSwitch switchEvent (newThreadTransitionSetBuilder (bank []))
    = (None, b1)
    /\ ~ (exists b2 : ThreadTransitionSetBuilder,
            LoadSchedSwitchWithSynthetics switchEvent
              (newThreadTransitionSetBuilder (bank [])) = (None, b2)
            /\ tts b2 = map (withPolicies InsertSynthetic) (tts b1)).
Proof.
  eexists. split; [vm_compute; reflexivity|].
  intros (b2 & Hrun & Htts). vm_compute in Hrun.
  injection Hrun as <-. vm_compute in Htts. discriminate Htts.
Qed.

Lemma LoadSchedSwitchWithSynthetics_refines_witness :
  let ttsb := newThreadTransitionSetBuilder (bank []) in
  let ttsb' := (LoadSchedSwitch switchEvent ttsb).2 in
  exists t1 t2 : threadTransition,
    tts ttsb' = [t1; t2]
    /\ PrevState t1 = UnknownState
    /\ LoadSchedSwitchWithSynthetics switchEvent ttsb
       = (None,
          {| ttsbStringBank := ttsbStringBank ttsb';
             tts := [setPrevState WaitingState
                       (withPolicies InsertSynthetic t1);
                     withPolicies InsertSynthetic t2] |}).
Proof.
  intros ttsb ttsb'.
  destruct (LoadSchedSwitchWithSynthetics_refines switchEvent ttsb ttsb')
    as (t1 & t2 & Htts & _ & _ & Hprev & Hrun);
    [vm_compute; reflexivity|].
  exists t1, t2. split; [exact Htts|]. split; [exact Hprev|exact Hrun].
Defined.

Lemma LoadSchedWakeup_one_transition_witness :
  exists (t : threadTransition) (sb : stringBank),
    LoadSchedWakeup wakeupEvent (newThreadTransitionSetBuilder (bank []))
    = (None, {| ttsbStringBank := sb; tts := [t] |})
    /\ EventIndex t = 4 /\ Timestamp t = 1004 /\ Pid t = 9
    /\ PrevCPU t = 4 /\ NextCPU t = 4
    /\ PrevState t = UnknownState /\ NextState t = WaitingState
    /\ onForwardsCPUConflict t = Drop
    /\ onBackwardsCPUConflict t = Drop
    /\ onForwardsStateConflict t = Drop
    /\ onBackwardsStateConflict t = Assert.
Proof.
  exact (LoadSchedWakeup_one_transition wakeupEvent
           (newThreadTransitionSetBuilder (bank [])) 9 4
           ltac:(vm_compute; reflexivity) ltac:(vm_compute; reflexivity)).
Defined.

Lemma LoadSchedMigrateTask_one_transition_witness :
  exists (t : threadTransition) (sb : stringBank),
    LoadSchedMigrateTask migrateEvent (newThreadTransitionSetBuilder (bank []))
    = (None, {| ttsbStringBank := sb; tts := [t] |})
    /\ EventIndex t = 3 /\ Timestamp t = 1003 /\ Pid t = 42
    /\ PrevCPU t = 1 /\ NextCPU t = 3
    /\ PrevCommand t = NextCommand t
    /\ PrevPriority t = NextPriority t
    /\ (trace.NumberProperties migrateEvent !! "prio" = None ->
        PrevPriority t = UnknownPriority)
    /\ PrevState t = UnknownState /\ NextState t = UnknownState
    /\ onForwardsCPUConflict t = Assert
    /\ onBackwardsCPUConflict t = Assert
    /\ onForwardsStateConflict t = Assert
    /\ onBackwardsStateConflict t = Assert.
Proof.
  exact (LoadSchedMigrateTask_one_transition migrateEvent
           (newThreadTransitionSetBuilder (bank [])) 42 1 3
           ltac:(vm_compute; reflexivity) ltac:(vm_compute; reflexivity)
           ltac:(vm_compute; reflexivity)).
Defined.

(** C5: the clipped example event is a sched_migrate_task event, which
    the default registry interprets with [LoadSchedMigrateTask], and it
    lacks the required [pid]; yet [threadTransitions] returns no error
    for it.  (And for the non-clipped example that lacks both [orig_cpu]
    and [dest_cpu] the error names [orig_cpu], the one read first.) *)
Lemma clipped_event_lacking_field_is_no_error :
  (loaders defaultRegistry !! trace.Name clippedEvent
   = Some LoadSchedMigrateTask
   /\ trace.NumberProperties clippedEvent !! "pid" = None
   /\ threadTransitions defaultRegistry clippedEvent
      = ([], None, defaultRegistry)
   /\ ~ (exists (f : string) (l : list threadTransition) (el : eventLoader),
           threadTransitions defaultRegistry clippedEvent
           = (l, Some (MissingFieldError f clippedEvent), el)))
  /\ (trace.NumberProperties brokenMigrateEvent !! "dest_cpu" = None
      /\ (threadTransitions defaultRegistry brokenMigrateEvent).1
         = ([], Some (status_Errorf codes.NotFound
                        "field 'orig_cpu' not found for event 5"))).
Proof.
  split.
  - split; [apply lookup_insert_eq|].
    split; [vm_compute; reflexivity|].
    split; [reflexivity|].
    intros (f & l & el & Hrun). discriminate Hrun.
  - split; vm_compute; reflexivity.
Qed.

Lemma defaultRegistry_migrate :
  loaders defaultRegistry !! "sched_migrate_task"
  = Some LoadSchedMigrateTask.
Proof. apply lookup_insert_eq. Qed.

Lemma threadTransitions_missing_field_witness :
  threadTransitions defaultRegistry truncatedMigrateEvent
  = ([], Some (MissingFieldError "dest_cpu" truncatedMigrateEvent),
     defaultRegistry)
  /\ threadTransitions defaultRegistry brokenMigrateEvent
     = ([], Some (MissingFieldError "orig_cpu" brokenMigrateEvent),
        defaultRegistry).
Proof.
  split.
  - destruct (threadTransitions_missing_field defaultRegistry
                truncatedMigrateEvent LoadSchedMigrateTask
                ["pid"; "orig_cpu"; "dest_cpu"]
                eq_refl defaultRegistry_migrate requires_migrate)
      as [Hmissing _].
    destruct (Hmissing "dest_cpu") as (f & Hfirst & _ & _ & _ & _ & Hrun);
      [simpl; tauto | vm_compute; reflexivity |].
    vm_compute in Hfirst. injection Hfirst as <-. exact Hrun.
  - destruct (threadTransitions_missing_field defaultRegistry
                brokenMigrateEvent LoadSchedMigrateTask
                ["pid"; "orig_cpu"; "dest_cpu"]
                eq_refl defaultRegistry_migrate requires_migrate)
      as [Hmissing _].
    destruct (Hmissing "dest_cpu") as (f & Hfirst & _ & _ & _ & _ & Hrun);
      [simpl; tauto | vm_compute; reflexivity |].
    vm_compute in Hfirst. injection Hfirst as <-. exact Hrun.
Defined.

Lemma threadTransitions_clipped_witness :
  threadTransitions defaultRegistry clippedEvent
  = ([], None, defaultRegistry).
Proof. apply threadTransitions_clipped. reflexivity. Defined.

Lemma threadTransitions_unregistered_witness :
  threadTransitions defaultRegistry exitEvent = ([], None, defaultRegistry).
Proof.
  apply threadTransitions_unregistered; vm_compute; reflexivity.
Defined.

Lemma newEventLoader_empty_or_built_witness :
  newEventLoader DefaultEventLoaders (bank ["a"])
  = (Some {| elStringBank := bank ["a"]; loaders := DefaultEventLoaders |}, None).
Proof.
  apply (newEventLoader_empty_or_built DefaultEventLoaders (bank ["a"])).
  apply insert_non_empty.
Defined.

(** C9: the registry whose one loader is [LoadOnce] returns a
    transition for the example switch event the first time and none the
    second time, although the list bank returns the same handle for
    equal text. *)
Lemma threadTransitions_twice_differs :
  (threadTransitions onceRegistry switchEvent).1
  = ([newThreadTransition 7 1007 1 |> setPrevCommand 0], None)
  /\ (threadTransitions (threadTransitions onceRegistry switchEvent).2
        switchEvent).1
     = ([], None)
  /\ (threadTransitions (threadTransitions onceRegistry switchEvent).2
        switchEvent).1
     <> (threadTransitions onceRegistry switchEvent).1.
Proof.
  split; [vm_compute; reflexivity|].
  split; [vm_compute; reflexivity|].
  vm_compute. discriminate.
Qed.

Lemma threadTransitions_twice_witness :
  (threadTransitions (threadTransitions defaultRegistry switchEvent).2
     switchEvent).1
  = (threadTransitions defaultRegistry switchEvent).1.
Proof.
  apply threadTransitions_twice. intros name L Hreg.
  destruct (DefaultEventLoaders_requires name L Hreg) as [R HR].
  exact (requires_builderProgram L R HR).
Defined.

Lemma absent_command_is_empty_string_witness :
  LoadSchedWakeup (withText "comm" "" wakeupEvent)
    (newThreadTransitionSetBuilder (bank ["a"]))
  = LoadSchedWakeup wakeupEvent (newThreadTransitionSetBuilder (bank ["a"]))
  /\ exists (t : threadTransition) (sb : stringBank),
       LoadSchedWakeup wakeupEvent (newThreadTransitionSetBuilder (bank ["a"]))
       = (None, {| ttsbStringBank := sb; tts := [t] |})
       /\ emptyCommand sb t
       /\ unknownPriority t
       /\ PrevCommand t <> UnknownCommand.
Proof.
  destruct (absent_command_is_empty_string wakeupEvent
              (newThreadTransitionSetBuilder (bank ["a"])))
    as (Hsame & _ & Hwakeup & _).
  split.
  - apply (Hsame LoadSchedWakeup _ "comm" requires_wakeup).
    vm_compute. reflexivity.
  - destruct (Hwakeup 9 4) as (t & sb & Hrun & Hcomm & Hprio);
      [vm_compute; reflexivity | vm_compute; reflexivity |].
    exists t, sb. split; [exact Hrun|]. split; [|split].
    + apply Hcomm. vm_compute. reflexivity.
    + apply Hprio. vm_compute. reflexivity.
    + pose proof Hrun as Ht. vm_compute in Ht.
      injection Ht as _ <-. vm_compute. discriminate.
Defined.

End Runs.

(** * Further properties of the interpreters and the registry *)

Section InterpreterOutcomes.
Context `{SchedTypes} `{StringBank}.

Lemma interprets_requires (L : Loader) (R : list string) (n : nat) :
  interprets L R n -> requires L R.
Proof. intros []; constructor. Qed.

(** With every required field present an interpreter returns no error
    and appends its transitions, all tagged with the event, to those the
    builder holds; the bank grows. *)
Lemma interprets_success (L : Loader) (R : list string) (n : nat)
    (ev : trace.Event) (sb : stringBank) (l : list threadTransition) :
  interprets L R n ->
  firstMissing R (trace.NumberProperties ev) = None ->
  exists (new : list threadTransition) (sb' : stringBank),
    L ev {| ttsbStringBank := sb; tts := l |}
    = (None, {| ttsbStringBank := sb'; tts := l ++ new |})
    /\ length new = n
    /\ Forall (tagged ev) new
    /\ grows sb sb'.
Proof.
  intros [].
  all: unfold LoadSchedMigrateTask, LoadSchedWakeup, LoadSchedSwitch,
         LoadSchedSwitchWithSynthetics, LoadSwitchData, firstMissing,
         number_at.
  all: repeat match goal with
         | |- context [trace.NumberProperties ?e !! ?k] =>
             destruct (trace.NumberProperties e !! k)
         end.
  all: try discriminate.
  all: intros _.
  all: cbn [negb NextPID PrevPID NextComm PrevComm SwitchNextPriority
            SwitchPrevPriority SwitchPrevState].
  all: run_chain; rewrite <- ?app_assoc; cbn [app].
  all: do 2 eexists; split; [reflexivity|].
  all: split; [reflexivity|].
  all: split; [repeat constructor|solve_grows].
Qed.

(** X1: [LoadSwitchData] returns the data, and no error, exactly when
    next_pid, prev_pid and prev_state are all present; otherwise it
    returns no data and the error for the first of them that is missing.
    In the data the PIDs are the converted fields, an absent command is
    the empty string, an absent priority is Unknown, and the state is
    Waiting for prev_state 0 and Sleeping for any other value. *)
Theorem LoadSwitchData_result (ev : trace.Event) :
  let N := trace.NumberProperties ev in
  let T := trace.TextProperties ev in
  match N !! "next_pid", N !! "prev_pid", N !! "prev_state" with
  | Some next_pid, Some prev_pid, Some prev_state =>
      LoadSwitchData ev
      = (Some {| NextPID := toPID next_pid;
                 PrevPID := toPID prev_pid;
                 NextComm := default "" (T !! "next_comm");
                 PrevComm := default "" (T !! "prev_comm");
                 SwitchNextPriority := priorityOf (N !! "next_prio");
                 SwitchPrevPriority := priorityOf (N !! "prev_prio");
                 SwitchPrevState := if prev_state =? 0 then WaitingState
                                    else SleepingState |},
         None)
  | _, _, _ =>
      exists f : string,
        firstMissing ["next_pid"; "prev_pid"; "prev_state"] N = Some f
        /\ LoadSwitchData ev = (None, Some (MissingFieldError f ev))
  end.
Proof.
  intros N T. subst N T.
  unfold LoadSwitchData, firstMissing, number_at, text_at, priorityOf.
  destruct (trace.NumberProperties ev !! "next_pid");
    [|eexists; split; reflexivity].
  destruct (trace.NumberProperties ev !! "prev_pid");
    [|destruct (trace.NumberProperties ev !! "next_prio");
      eexists; split; reflexivity].
  destruct (trace.NumberProperties ev !! "prev_state") as [ps|];
    [|destruct (trace.NumberProperties ev !! "next_prio"),
        (trace.NumberProperties ev !! "prev_prio");
      eexists; split; reflexivity].
  destruct (trace.NumberProperties ev !! "next_prio"),
    (trace.NumberProperties ev !! "prev_prio"), (ps =? 0); reflexivity.
Qed.

(** X2: an interpreter of the package does all or nothing.  When a
    required field is missing it returns the error for the first missing
    one and leaves the builder exactly as it was, transitions and bank.
    Otherwise it returns no error, keeps the transitions the builder held
    and appends one (migrate, wakeup) or two (both switch interpreters)
    new ones, and the bank has only grown. *)
Theorem interpreter_all_or_nothing
    (L : Loader) (R : list string) (n : nat)
    (ev : trace.Event) (ttsb : ThreadTransitionSetBuilder) :
  interprets L R n ->
  match firstMissing R (trace.NumberProperties ev) with
  | Some f => L ev ttsb = (Some (MissingFieldError f ev), ttsb)
  | None =>
      exists (new : list threadTransition) (sb : stringBank),
        L ev ttsb = (None, {| ttsbStringBank := sb; tts := tts ttsb ++ new |})
        /\ length new = n
        /\ grows (ttsbStringBank ttsb) sb
  end.
Proof.
  intros HL.
  pose proof (requires_error L R (interprets_requires L R n HL) ev ttsb)
    as Herr.
  destruct (firstMissing R (trace.NumberProperties ev)) eqn:Hfm;
    [exact Herr|].
  destruct ttsb as [sb l].
  destruct (interprets_success L R n ev sb l HL Hfm)
    as (new & sb' & Hrun & Hlen & _ & Hg).
  exists new, sb'. auto.
Qed.

(** What [threadTransitions] returns on a registry of the package's
    interpreters: nothing and the registry as it was, or an interpreter's
    tagged transitions and a grown bank. *)
Lemma threadTransitions_outcome (el : eventLoader) (ev : trace.Event) :
  packageRegistry el ->
  (exists err, threadTransitions el ev = ([], err, el))
  \/ (exists (new : list threadTransition) (sb : stringBank),
        threadTransitions el ev
        = (new, None, {| elStringBank := sb; loaders := loaders el |})
        /\ (length new = 1%nat \/ length new = 2%nat)
        /\ Forall (tagged ev) new
        /\ grows (elStringBank el) sb).
Proof.
  intros Hpkg. unfold threadTransitions.
  destruct (trace.Clipped ev); [left; eexists; reflexivity|].
  destruct (loaders el !! trace.Name ev) as [L|] eqn:Hreg;
    [|left; eexists; reflexivity].
  destruct (Hpkg _ _ Hreg) as (R & n & HL).
  pose proof (requires_error L R (interprets_requires L R n HL) ev
                (newThreadTransitionSetBuilder (elStringBank el))) as Herr.
  destruct (firstMissing R (trace.NumberProperties ev)) eqn:Hfm.
  - left. rewrite Herr. destruct el. eexists; reflexivity.
  - right.
    destruct (interprets_success L R n ev (elStringBank el) [] HL Hfm)
      as (new & sb' & Hrun & Hlen & Htag & Hg).
    unfold newThreadTransitionSetBuilder. rewrite Hrun.
    exists new, sb'. repeat split; auto.
    destruct HL; auto.
Qed.

(** X3: on a registry of the package's interpreters, every transition
    that [threadTransitions] returns for an event carries that event's
    index and timestamp, and there are at most two of them. *)
Theorem threadTransitions_tagged (el : eventLoader) (ev : trace.Event) :
  packageRegistry el ->
  Forall (tagged ev) (threadTransitions el ev).1.1
  /\ (length (threadTransitions el ev).1.1 <= 2)%nat.
Proof.
  intros Hpkg.
  destruct (threadTransitions_outcome el ev Hpkg)
    as [[err ->] | (new & sb & -> & Hlen & Htag & _)]; cbn.
  - split; [constructor|lia].
  - split; [exact Htag|]. destruct Hlen as [-> | ->]; lia.
Qed.

(** X9: on a registry of the package's interpreters, an event for which
    [threadTransitions] returns no transition (clipped, unregistered or
    lacking a required field) leaves the registry as it was: only events
    that yield transitions intern anything. *)
Theorem no_transitions_registry_unchanged
    (el : eventLoader) (ev : trace.Event) :
  packageRegistry el ->
  (threadTransitions el ev).1.1 = [] ->
  (threadTransitions el ev).2 = el.
Proof.
  intros Hpkg.
  destruct (threadTransitions_outcome el ev Hpkg)
    as [[err ->] | (new & sb & -> & Hlen & _ & _)]; cbn; [trivial|].
  intros ->. destruct Hlen; discriminate.
Qed.

End InterpreterOutcomes.

Section FieldAttribution.
Context `{SchedTypes} `{StringBank}.

(** X4: both switch interpreters attribute the event's fields to the
    right thread.  The first transition is for next_pid, its command is
    the bank's handle of next_comm and its priority comes from next_prio;
    the second is for prev_pid, with the handle of prev_comm and the
    priority from prev_prio.  An absent command reads as the empty
    string, an absent priority as Unknown. *)
Theorem switch_fields_attributed
    (L : Loader) (ev : trace.Event) (ttsb : ThreadTransitionSetBuilder)
    (next_pid prev_pid prev_state : Z) :
  L = LoadSchedSwitch \/ L = LoadSchedSwitchWithSynthetics ->
  trace.NumberProperties ev !! "next_pid" = Some next_pid ->
  trace.NumberProperties ev !! "prev_pid" = Some prev_pid ->
  trace.NumberProperties ev !! "prev_state" = Some prev_state ->
  exists (t1 t2 : threadTransition) (sb : stringBank),
    L ev ttsb
    = (None, {| ttsbStringBank := sb; tts := tts ttsb ++ [t1; t2] |})
    /\ (Pid t1 = toPID next_pid
        /\ hasCommand sb (text_at (trace.TextProperties ev) "next_comm") t1
        /\ hasPriority
             (priorityOf (trace.NumberProperties ev !! "next_prio")) t1)
    /\ (Pid t2 = toPID prev_pid
        /\ hasCommand sb (text_at (trace.TextProperties ev) "prev_comm") t2
        /\ hasPriority
             (priorityOf (trace.NumberProperties ev !! "prev_prio")) t2).
Proof.
  intros HL Hn Hp Hs. destruct ttsb as [sb l].
  destruct HL as [-> | ->].
  all: unfold LoadSchedSwitch, LoadSchedSwitchWithSynthetics,
         LoadSwitchData, number_at.
  all: rewrite Hn, Hp, Hs.
  all: destruct (trace.NumberProperties ev !! "next_prio") as [np|];
         destruct (trace.NumberProperties ev !! "prev_prio") as [pp|].
  all: cbn [negb NextPID PrevPID NextComm PrevComm SwitchNextPriority
            SwitchPrevPriority SwitchPrevState].
  all: run_chain; rewrite <- !app_assoc; cbn [tts app].
  all: do 3 eexists; split; [reflexivity|].
  all: unfold hasCommand, hasPriority; cbn.
  all: repeat split; try (apply handle_of_intern; solve_grows).
Qed.

(** X5: the migrate and the wakeup interpreter store, before and after,
    the bank's handle of comm as the command (the empty string when comm
    is absent) and the converted prio as the priority (Unknown when prio
    is absent). *)
Theorem migrate_wakeup_fields_attributed
    (ev : trace.Event) (ttsb : ThreadTransitionSetBuilder) :
  let N := trace.NumberProperties ev in
  let comm := text_at (trace.TextProperties ev) "comm" in
  (forall pid orig_cpu dest_cpu : Z,
     N !! "pid" = Some pid -> N !! "orig_cpu" = Some orig_cpu ->
     N !! "dest_cpu" = Some dest_cpu ->
     exists (t : threadTransition) (sb : stringBank),
       LoadSchedMigrateTask ev ttsb
       = (None, {| ttsbStringBank := sb; tts := tts ttsb ++ [t] |})
       /\ hasCommand sb comm t
       /\ hasPriority (priorityOf (N !! "prio")) t)
  /\ (forall pid target_cpu : Z,
        N !! "pid" = Some pid -> N !! "target_cpu" = Some target_cpu ->
        exists (t : threadTransition) (sb : stringBank),
          LoadSchedWakeup ev ttsb
          = (None, {| ttsbStringBank := sb; tts := tts ttsb ++ [t] |})
          /\ hasCommand sb comm t
          /\ hasPriority (priorityOf (N !! "prio")) t).
Proof.
  intros N comm. subst N comm. destruct ttsb as [sb l]. split.
  - intros pid orig_cpu dest_cpu Hp Ho Hd.
    unfold LoadSchedMigrateTask, number_at. rewrite Hp, Ho, Hd.
    destruct (trace.NumberProperties ev !! "prio") as [prio|].
    all: cbn [negb]; run_chain.
    all: do 2 eexists; split; [reflexivity|].
    all: unfold hasCommand, hasPriority; cbn.
    all: repeat split; try (apply handle_of_intern; solve_grows).
  - intros pid target_cpu Hp Hc.
    unfold LoadSchedWakeup, number_at. rewrite Hp, Hc.
    destruct (trace.NumberProperties ev !! "prio") as [prio|].
    all: cbn [negb]; run_chain.
    all: do 2 eexists; split; [reflexivity|].
    all: unfold hasCommand, hasPriority; cbn.
    all: repeat split; try (apply handle_of_intern; solve_grows).
Qed.

(** X13: the two switch interpreters differ in no identity and no text.
    On every event and builder they return the same error, leave the
    same bank, and hold transitions for the same PIDs in the same
    order. *)
Theorem switch_interpreters_agree
    (ev : trace.Event) (ttsb : ThreadTransitionSetBuilder) :
  (LoadSchedSwitch ev ttsb).1 = (LoadSchedSwitchWithSynthetics ev ttsb).1
  /\ ttsbStringBank (LoadSchedSwitch ev ttsb).2
     = ttsbStringBank (LoadSchedSwitchWithSynthetics ev ttsb).2
  /\ map Pid (tts (LoadSchedSwitch ev ttsb).2)
     = map Pid (tts (LoadSchedSwitchWithSynthetics ev ttsb).2).
Proof.
  unfold LoadSchedSwitch, LoadSchedSwitchWithSynthetics.
  pose proof (LoadSwitchData_cases ev) as Hsd.
  destruct (firstMissing _ _) as [f|].
  - rewrite Hsd. auto.
  - destruct Hsd as [sd ->]. destruct ttsb as [sb l].
    run_chain. cbn [fst snd tts ttsbStringBank].
    rewrite !map_app. auto.
Qed.

(** X11: an interpreter of the package reads neither the event's
    tracepoint name nor its clipped flag: called directly it interprets a
    clipped event like any other, the guard being in [threadTransitions]
    alone.  The migrate and the wakeup interpreter do not read the
    reporting CPU either. *)
Theorem interpreters_ignore_name_and_clipped
    (L : Loader) (R : list string) (ev : trace.Event)
    (ttsb : ThreadTransitionSetBuilder)
    (name : string) (clipped : bool) (cpu : Z) :
  requires L R ->
  L (withName name (withClipped clipped ev)) ttsb = L ev ttsb
  /\ (L = LoadSchedMigrateTask \/ L = LoadSchedWakeup ->
      L (withCPU cpu ev) ttsb = L ev ttsb).
Proof.
  intros HR. split.
  - destruct HR; reflexivity.
  - intros [-> | ->]; reflexivity.
Qed.

End FieldAttribution.

Section RegistryInvariants.
Context `{SchedTypes} `{StringBank}.

Lemma DefaultEventLoaders_interprets (name : string) (L : Loader) :
  DefaultEventLoaders !! name = Some L -> exists R n, interprets L R n.
Proof.
  unfold DefaultEventLoaders. intros Hl.
  repeat (apply lookup_insert_Some in Hl;
          destruct Hl as [[_ <-] | [_ Hl]]; [do 2 eexists; constructor|]).
  rewrite lookup_empty in Hl. discriminate.
Qed.

Lemma SwitchOnlyLoaders_interprets (name : string) (L : Loader) :
  SwitchOnlyLoaders !! name = Some L -> exists R n, interprets L R n.
Proof.
  unfold SwitchOnlyLoaders. intros Hl.
  apply lookup_insert_Some in Hl.
  destruct Hl as [[_ <-] | [_ Hl]]; [do 2 eexists; constructor|].
  rewrite lookup_empty in Hl. discriminate.
Qed.

(** X6: [newEventLoader] accepts both loader sets, whatever the bank.
    The registry of [DefaultEventLoaders] returns nothing, and no error,
    for a non-clipped event of any tracepoint other than
    sched_migrate_task, sched_switch, sched_wakeup and sched_wakeup_new;
    the registry of [SwitchOnlyLoaders] does so for any tracepoint other
    than sched_switch. *)
Theorem preset_registries (sb : stringBank) (ev : trace.Event) :
  let elD := {| elStringBank := sb; loaders := DefaultEventLoaders |} in
  let elS := {| elStringBank := sb; loaders := SwitchOnlyLoaders |} in
  newEventLoader DefaultEventLoaders sb = (Some elD, None)
  /\ newEventLoader SwitchOnlyLoaders sb = (Some elS, None)
  /\ (trace.Clipped ev = false ->
      ~ In (trace.Name ev)
          ["sched_migrate_task"; "sched_switch"; "sched_wakeup";
           "sched_wakeup_new"] ->
      threadTransitions elD ev = ([], None, elD))
  /\ (trace.Clipped ev = false ->
      trace.Name ev <> "sched_switch" ->
      threadTransitions elS ev = ([], None, elS)).
Proof.
  intros elD elS. subst elD elS.
  assert (Hbuilt : forall ls : gmap string Loader,
            ls <> ∅ ->
            newEventLoader ls sb
            = (Some {| elStringBank := sb; loaders := ls |}, None)).
  { intros ls Hne. unfold newEventLoader.
    destruct (Nat.eqb (size ls) 0) eqn:E; [|reflexivity].
    apply Nat.eqb_eq, map_size_empty_iff in E. contradiction. }
  split; [apply Hbuilt, insert_non_empty|].
  split; [apply Hbuilt, insert_non_empty|].
  split.
  - intros Hclip Hname. unfold threadTransitions. rewrite Hclip.
    cbn [loaders]. unfold DefaultEventLoaders.
    rewrite !lookup_insert_ne, lookup_empty; [reflexivity|..].
    all: intros E; apply Hname; rewrite <- E; simpl; tauto.
  - intros Hclip Hname. unfold threadTransitions. rewrite Hclip.
    cbn [loaders]. unfold SwitchOnlyLoaders.
    rewrite lookup_insert_ne, lookup_empty; [reflexivity|].
    intros E. apply Hname. now rewrite <- E.
Qed.

(** X7: a registry of [DefaultEventLoaders] interprets a
    sched_wakeup_new event exactly as the same event named
    sched_wakeup. *)
Theorem wakeup_new_as_wakeup (el : eventLoader) (ev : trace.Event) :
  loaders el = DefaultEventLoaders ->
  threadTransitions el (withName "sched_wakeup_new" ev)
  = threadTransitions el (withName "sched_wakeup" ev).
Proof.
  intros Hls.
  assert (Hw : DefaultEventLoaders !! "sched_wakeup"
               = Some (LoadSchedWakeup : Loader)).
  { unfold DefaultEventLoaders.
    rewrite !lookup_insert_ne by discriminate. apply lookup_insert_eq. }
  assert (Hn : DefaultEventLoaders !! "sched_wakeup_new"
               = Some (LoadSchedWakeup : Loader)).
  { unfold DefaultEventLoaders.
    rewrite !lookup_insert_ne by discriminate. apply lookup_insert_eq. }
  unfold threadTransitions. rewrite Hls.
  cbn [trace.Clipped trace.Name withName]. rewrite Hw, Hn. reflexivity.
Qed.


(** X12: what [threadTransitions] returns for an event does not depend
    on what the registry interpreted in between.  Once an event was
    interpreted by a registry of builder programs, a registry with the
    same loaders whose bank has grown from the one that call left, by any
    internings, returns the same transitions and the same error for
    it. *)
Theorem threadTransitions_replay (el el' : eventLoader) (ev : trace.Event) :
  (forall (name : string) (L : Loader),
     loaders el !! name = Some L -> builderProgram L) ->
  loaders el' = loaders el ->
  grows (elStringBank (threadTransitions el ev).2) (elStringBank el') ->
  (threadTransitions el' ev).1 = (threadTransitions el ev).1.
Proof.
  intros Hpure Hls. unfold threadTransitions. rewrite Hls.
  destruct (trace.Clipped ev); [reflexivity|].
  destruct (loaders el !! trace.Name ev) as [L|] eqn:Hreg; [|reflexivity].
  destruct (Hpure _ _ Hreg ev) as (cs & err & HL).
  rewrite !HL. destruct err as [e|]; cbn; [reflexivity|].
  intros Hg. unfold transitions, newThreadTransitionSetBuilder. f_equal.
  now apply runCalls_replay.
Qed.

End RegistryInvariants.

Section ErrorText.
Context `{SchedTypes} `{StringBank}.

Lemma occurs_append (c : Ascii.ascii) (a b : string) :
  occurs c (a +:+ b) = occurs c a || occurs c b.
Proof.
  induction a as [|x a IH]; [reflexivity|].
  simpl. rewrite IH. now rewrite orb_assoc.
Qed.

Lemma string_of_uint_no_quote (d : Decimal.uint) :
  occurs "'"%char (NilEmpty.string_of_uint d) = false.
Proof. induction d; simpl; auto. Qed.

Lemma fmt_d_no_quote (n : Z) : occurs "'"%char (fmt_d n) = false.
Proof.
  unfold fmt_d, NilZero.string_of_int, NilZero.string_of_uint.
  destruct (Z.to_int n) as [d|d]; destruct d; simpl;
    rewrite ?string_of_uint_no_quote; reflexivity.
Qed.

(** The decimal text of an integer determines the integer. *)
Lemma fmt_d_inj (a b : Z) : fmt_d a = fmt_d b -> a = b.
Proof.
  unfold fmt_d. intros E. apply DecimalZ.to_int_inj.
  assert (Hnonnil : forall z, Z.to_int z <> Decimal.Pos Decimal.Nil
                              /\ Z.to_int z <> Decimal.Neg Decimal.Nil).
  { intros [|p|p]; split; try discriminate.
    all: intros [= E']; exact (DecimalPos.Unsigned.to_uint_nonnil p E'). }
  destruct (Hnonnil a) as [Ha1 Ha2]. destruct (Hnonnil b) as [Hb1 Hb2].
  pose proof (NilZero.isi _ Ha1 Ha2) as Ia.
  pose proof (NilZero.isi _ Hb1 Hb2) as Ib.
  rewrite E in Ia. congruence.
Qed.

(** A text is cut in one way only at a quote that is followed by no
    further quote. *)
Lemma append_quote_inj (f1 f2 r1 r2 : string) :
  occurs "'"%char r1 = false -> occurs "'"%char r2 = false ->
  f1 +:+ String "'"%char r1 = f2 +:+ String "'"%char r2 ->
  f1 = f2 /\ r1 = r2.
Proof.
  intros H1 H2. revert f2.
  induction f1 as [|c f1 IH]; intros [|c' f2]; simpl.
  - intros [= ->]. auto.
  - intros [= <- ->]. rewrite occurs_append in H1. simpl in H1.
    now rewrite orb_true_r in H1.
  - intros [= -> <-]. rewrite occurs_append in H2. simpl in H2.
    now rewrite orb_true_r in H2.
  - intros [= <- E]. destruct (IH _ E) as [-> ->]. auto.
Qed.

(** X10: a missing-field error identifies its field and its event's
    index: two such errors are equal only for the same field name and the
    same index. *)
Theorem MissingFieldError_inj (f f' : string) (ev ev' : trace.Event) :
  MissingFieldError f ev = MissingFieldError f' ev' ->
  f = f' /\ trace.Index ev = trace.Index ev'.
Proof.
  unfold MissingFieldError. intros [= E].
  apply append_quote_inj in E.
  - destruct E as [-> E]. split; [reflexivity|].
    injection E as E. now apply fmt_d_inj.
  - simpl. apply fmt_d_no_quote.
  - simpl. apply fmt_d_no_quote.
Qed.

End ErrorText.

Section PoliciesAndFields.
Context `{SchedTypes} `{StringBank}.

Lemma declares_requires (L : Loader) (R : list string)
    (p : ConflictPolicy * ConflictPolicy * ConflictPolicy * ConflictPolicy) :
  declares L R p -> requires L R.
Proof. intros []; constructor. Qed.

(** Every transition an interpreter emits has the policies it declares. *)
Lemma declares_policies (L : Loader) (R : list string)
    (p : ConflictPolicy * ConflictPolicy * ConflictPolicy * ConflictPolicy)
    (ev : trace.Event) (sb : stringBank) (l : list threadTransition) :
  declares L R p ->
  firstMissing R (trace.NumberProperties ev) = None ->
  exists (new : list threadTransition) (sb' : stringBank),
    L ev {| ttsbStringBank := sb; tts := l |}
    = (None, {| ttsbStringBank := sb'; tts := l ++ new |})
    /\ Forall (fun t => policiesOf t = p) new.
Proof.
  intros [].
  all: unfold LoadSchedMigrateTask, LoadSchedWakeup, LoadSchedSwitch,
         LoadSchedSwitchWithSynthetics, LoadSwitchData, firstMissing,
         number_at.
  all: repeat match goal with
         | |- context [trace.NumberProperties ?e !! ?k] =>
             destruct (trace.NumberProperties e !! k)
         end.
  all: try discriminate.
  all: intros _.
  all: cbn [negb NextPID PrevPID NextComm PrevComm SwitchNextPriority
            SwitchPrevPriority SwitchPrevState].
  all: run_chain; rewrite <- ?app_assoc; cbn [app].
  all: do 2 eexists; split; [reflexivity|].
  all: repeat constructor.
Qed.

(** The policies of what [threadTransitions] returns are among those the
    registry's interpreters declare. *)
Lemma threadTransitions_policies (el : eventLoader) (ev : trace.Event)
    (P : ConflictPolicy * ConflictPolicy * ConflictPolicy * ConflictPolicy
         -> Prop) :
  (forall (name : string) (L : Loader),
     loaders el !! name = Some L -> exists R p, declares L R p /\ P p) ->
  Forall (fun t => P (policiesOf t)) (threadTransitions el ev).1.1.
Proof.
  intros Hdecl. unfold threadTransitions.
  destruct (trace.Clipped ev); [constructor|].
  destruct (loaders el !! trace.Name ev) as [L|] eqn:Hreg; [|constructor].
  destruct (Hdecl _ _ Hreg) as (R & p & HL & HP).
  pose proof (requires_error L R (declares_requires L R p HL) ev
                (newThreadTransitionSetBuilder (elStringBank el))) as Herr.
  destruct (firstMissing R (trace.NumberProperties ev)) eqn:Hfm.
  - rewrite Herr. constructor.
  - destruct (declares_policies L R p ev (elStringBank el) [] HL Hfm)
      as (new & sb' & Hrun & Hpol).
    unfold newThreadTransitionSetBuilder. rewrite Hrun. cbn.
    eapply Forall_impl; [exact Hpol|]. cbn. intros t ->. exact HP.
Qed.

(** X14: the policies a registry hands out are those of its loader set.
    Every transition a registry of [SwitchOnlyLoaders] returns has all
    four policies InsertSynthetic.  Every transition a registry of
    [DefaultEventLoaders] returns has either all four Assert or Drop on
    both CPU directions and on forwards state with Assert on backwards
    state: it never asks for a synthetic transition and never relaxes the
    backwards state. *)
Theorem preset_policies (el : eventLoader) (ev : trace.Event) :
  (loaders el = DefaultEventLoaders ->
   Forall (fun t => policiesOf t = (Assert, Assert, Assert, Assert)
                    \/ policiesOf t = (Drop, Drop, Drop, Assert))
          (threadTransitions el ev).1.1)
  /\ (loaders el = SwitchOnlyLoaders ->
      Forall (fun t => policiesOf t
                       = (InsertSynthetic, InsertSynthetic,
                          InsertSynthetic, InsertSynthetic))
             (threadTransitions el ev).1.1).
Proof.
  split; intros Hls.
  - apply (threadTransitions_policies el ev
             (fun p => p = (Assert, Assert, Assert, Assert)
                       \/ p = (Drop, Drop, Drop, Assert))).
    intros name L. rewrite Hls. unfold DefaultEventLoaders. intros Hl.
    repeat (apply lookup_insert_Some in Hl;
            destruct Hl as [[_ <-] | [_ Hl]];
            [do 2 eexists; split; [constructor|auto]|]).
    rewrite lookup_empty in Hl. discriminate.
  - apply (threadTransitions_policies el ev
             (fun p => p = (InsertSynthetic, InsertSynthetic,
                            InsertSynthetic, InsertSynthetic))).
    intros name L. rewrite Hls. unfold SwitchOnlyLoaders. intros Hl.
    apply lookup_insert_Some in Hl.
    destruct Hl as [[_ <-] | [_ Hl]];
      [do 2 eexists; split; [constructor|auto]|].
    rewrite lookup_empty in Hl. discriminate.
Qed.

(** X15: an interpreter of the package ignores the fields it does not
    read.  Setting a numeric field other than the ones it reads, or a
    text field other than the ones it reads, to any value changes neither
    its error nor the builder it leaves. *)
Theorem unread_fields_ignored
    (L : Loader) (numbers texts : list string)
    (ev : trace.Event) (ttsb : ThreadTransitionSetBuilder)
    (k : string) (n : Z) (s : string) :
  reads L numbers texts ->
  (~ In k numbers -> L (withNumber k n ev) ttsb = L ev ttsb)
  /\ (~ In k texts -> L (withText k s ev) ttsb = L ev ttsb).
Proof.
  intros HL. split; intros Hk.
  all: destruct HL.
  all: unfold LoadSchedMigrateTask, LoadSchedWakeup, LoadSchedSwitch,
         LoadSchedSwitchWithSynthetics, LoadSwitchData, MissingFieldError,
         number_at, text_at, withNumber, withText.
  all: cbn [trace.NumberProperties trace.TextProperties trace.Index
            trace.Timestamp trace.CPU].
  all: rewrite !lookup_insert_ne
         by (intros ->; apply Hk; simpl; tauto).
  all: reflexivity.
Qed.

(** A successful run of the migrate or the wakeup interpreter, spelled
    out: the one new transition holds the two handles that interning
    comm twice in a row returns. *)
Lemma comm_loader_run (L : Loader) (ev : trace.Event) (sb : stringBank)
    (l : list threadTransition) :
  L = LoadSchedMigrateTask \/ L = LoadSchedWakeup ->
  (L ev {| ttsbStringBank := sb; tts := l |}).1 = None ->
  let comm := text_at (trace.TextProperties ev) "comm" in
  let sb1 := (stringIDByString sb comm).2 in
  exists t : threadTransition,
    L ev {| ttsbStringBank := sb; tts := l |}
    = (None, {| ttsbStringBank := (stringIDByString sb1 comm).2;
                tts := l ++ [t] |})
    /\ PrevCommand t = (stringIDByString sb comm).1
    /\ NextCommand t = (stringIDByString sb1 comm).1.
Proof.
  intros [-> | ->].
  all: unfold LoadSchedMigrateTask, LoadSchedWakeup, number_at.
  all: repeat match goal with
         | |- context [trace.NumberProperties ?e !! ?k] =>
             destruct (trace.NumberProperties e !! k)
         end.
  all: cbn [negb fst]; try discriminate.
  all: intros _; run_chain.
  all: eexists; split; [reflexivity|].
  all: cbn; split; reflexivity.
Qed.

(** X16: equal command texts get equal handles across events.  When the
    migrate or the wakeup interpreter has emitted a transition for one
    event, and later, on a bank grown from the one that run left, either
    of them emits a transition for an event with the same comm text, the
    two transitions hold the same command handles. *)
Theorem equal_comm_equal_handle
    (L1 L2 : Loader) (ev1 ev2 : trace.Event)
    (ttsb1 ttsb2 : ThreadTransitionSetBuilder)
    (t1 t2 : threadTransition) (sb1 sb2 : stringBank) :
  L1 = LoadSchedMigrateTask \/ L1 = LoadSchedWakeup ->
  L2 = LoadSchedMigrateTask \/ L2 = LoadSchedWakeup ->
  L1 ev1 ttsb1
  = (None, {| ttsbStringBank := sb1; tts := tts ttsb1 ++ [t1] |}) ->
  grows sb1 (ttsbStringBank ttsb2) ->
  L2 ev2 ttsb2
  = (None, {| ttsbStringBank := sb2; tts := tts ttsb2 ++ [t2] |}) ->
  text_at (trace.TextProperties ev1) "comm"
  = text_at (trace.TextProperties ev2) "comm" ->
  PrevCommand t2 = PrevCommand t1 /\ NextCommand t2 = NextCommand t1.
Proof.
  intros HL1 HL2 Hrun1 Hg Hrun2 Hcomm.
  destruct ttsb1 as [b1 l1]. destruct ttsb2 as [b2 l2]. cbn [tts] in *.
  destruct (comm_loader_run L1 ev1 b1 l1 HL1) as (t1' & Hrun1' & Hp1 & Hn1);
    [now rewrite Hrun1|].
  destruct (comm_loader_run L2 ev2 b2 l2 HL2) as (t2' & Hrun2' & Hp2 & Hn2);
    [now rewrite Hrun2|].
  rewrite Hrun1 in Hrun1'. injection Hrun1' as Hsb1 Ht1.
  apply app_inv_head in Ht1. injection Ht1 as <-.
  rewrite Hrun2 in Hrun2'. injection Hrun2' as Hsb2 Ht2.
  apply app_inv_head in Ht2. injection Ht2 as <-.
  cbn [ttsbStringBank] in Hg. rewrite <- Hcomm in *.
  set (comm := text_at (trace.TextProperties ev1) "comm") in *.
  assert (Hg1 : grows (stringIDByString b1 comm).2 b2).
  { refine (grows_trans _ _ _ _ Hg). subst sb1. apply grows_step. }
  rewrite Hp1, Hn1, Hp2, Hn2, !stringIDByString_twice.
  split; now apply stringIDByString_stable.
Qed.

End PoliciesAndFields.

(** * The further properties on the example events *)
Module MoreRuns.
Import Examples.
#[local] Existing Instance int64Types.
#[local] Existing Instance listStringBank.

Lemma defaultRegistry_package : packageRegistry defaultRegistry.
Proof. intros name L. apply DefaultEventLoaders_interprets. Qed.

Lemma defaultRegistry_programs (name : string) (L : Loader) :
  loaders defaultRegistry !! name = Some L -> builderProgram L.
Proof.
  intros Hreg. destruct (DefaultEventLoaders_requires name L Hreg) as [R HR].
  exact (requires_builderProgram L R HR).
Qed.

Lemma interpreter_all_or_nothing_witness :
  let ttsb := newThreadTransitionSetBuilder (bank ["a"]) in
  LoadSchedMigrateTask brokenMigrateEvent ttsb
  = (Some (MissingFieldError "orig_cpu" brokenMigrateEvent), ttsb)
  /\ exists (new : list threadTransition) (sb : stringBank),
       LoadSchedMigrateTask migrateEvent ttsb
       = (None, {| ttsbStringBank := sb; tts := tts ttsb ++ new |})
       /\ length new = 1%nat
       /\ grows (ttsbStringBank ttsb) sb.
Proof.
  intros ttsb. split.
  - exact (interpreter_all_or_nothing LoadSchedMigrateTask _ 1
             brokenMigrateEvent ttsb interprets_migrate).
  - exact (interpreter_all_or_nothing LoadSchedMigrateTask _ 1
             migrateEvent ttsb interprets_migrate).
Defined.

Lemma threadTransitions_tagged_witness :
  Forall (tagged switchEvent) (threadTransitions defaultRegistry switchEvent).1.1
  /\ (length (threadTransitions defaultRegistry switchEvent).1.1 <= 2)%nat.
Proof.
  exact (threadTransitions_tagged defaultRegistry switchEvent
           defaultRegistry_package).
Defined.

Lemma no_transitions_registry_unchanged_witness :
  (threadTransitions defaultRegistry brokenMigrateEvent).2 = defaultRegistry.
Proof.
  apply (no_transitions_registry_unchanged defaultRegistry brokenMigrateEvent
           defaultRegistry_package).
  vm_compute. reflexivity.
Defined.

Lemma switch_fields_attributed_witness :
  exists (t1 t2 : threadTransition) (sb : stringBank),
    LoadSchedSwitch switchEvent (newThreadTransitionSetBuilder (bank []))
    = (None, {| ttsbStringBank := sb; tts := [t1; t2] |})
    /\ (Pid t1 = 5 /\ hasCommand sb "a" t1 /\ hasPriority UnknownPriority t1)
    /\ (Pid t2 = 7 /\ hasCommand sb "b" t2 /\ hasPriority UnknownPriority t2).
Proof.
  exact (switch_fields_attributed LoadSchedSwitch switchEvent
           (newThreadTransitionSetBuilder (bank [])) 5 7 0
           (or_introl eq_refl)
           ltac:(vm_compute; reflexivity) ltac:(vm_compute; reflexivity)
           ltac:(vm_compute; reflexivity)).
Defined.

Lemma migrate_wakeup_fields_attributed_witness :
  exists (t : threadTransition) (sb : stringBank),
    LoadSchedMigrateTask migrateEvent (newThreadTransitionSetBuilder (bank []))
    = (None, {| ttsbStringBank := sb; tts := [t] |})
    /\ hasCommand sb "x" t
    /\ hasPriority (toPriority 10) t.
Proof.
  exact (proj1 (migrate_wakeup_fields_attributed migrateEvent
                  (newThreadTransitionSetBuilder (bank [])))
           42 1 3
           ltac:(vm_compute; reflexivity) ltac:(vm_compute; reflexivity)
           ltac:(vm_compute; reflexivity)).
Defined.

Lemma preset_registries_witness :
  threadTransitions defaultRegistry exitEvent = ([], None, defaultRegistry)
  /\ threadTransitions switchOnlyRegistry wakeupEvent
     = ([], None, switchOnlyRegistry).
Proof.
  destruct (preset_registries (bank []) exitEvent) as (_ & _ & Hd & _).
  destruct (preset_registries (bank []) wakeupEvent) as (_ & _ & _ & Hs).
  split.
  - apply Hd; [reflexivity|]. vm_compute. intuition discriminate.
  - apply Hs; [reflexivity|]. vm_compute. discriminate.
Defined.

Lemma wakeup_new_as_wakeup_witness :
  threadTransitions defaultRegistry (withName "sched_wakeup_new" wakeupEvent)
  = threadTransitions defaultRegistry (withName "sched_wakeup" wakeupEvent).
Proof. exact (wakeup_new_as_wakeup defaultRegistry wakeupEvent eq_refl). Defined.


Lemma MissingFieldError_inj_witness :
  "pid" = "pid"
  /\ trace.Index migrateEvent = trace.Index (withCPU 9 migrateEvent).
Proof.
  exact (MissingFieldError_inj "pid" "pid" migrateEvent
           (withCPU 9 migrateEvent) eq_refl).
Defined.

Lemma interpreters_ignore_name_and_clipped_witness :
  LoadSchedWakeup (withName "sched_switch" (withClipped true wakeupEvent))
    (newThreadTransitionSetBuilder (bank []))
  = LoadSchedWakeup wakeupEvent (newThreadTransitionSetBuilder (bank [])).
Proof.
  exact (proj1 (interpreters_ignore_name_and_clipped LoadSchedWakeup _
                  wakeupEvent (newThreadTransitionSetBuilder (bank []))
                  "sched_switch" true 0 requires_wakeup)).
Defined.

Lemma threadTransitions_replay_witness :
  (threadTransitions
     {| elStringBank := bank ["a"; "b"; "c"]; loaders := DefaultEventLoaders |}
     switchEvent).1
  = (threadTransitions defaultRegistry switchEvent).1.
Proof.
  apply threadTransitions_replay;
    [exact defaultRegistry_programs | reflexivity |].
  apply rtc_once. exists "c". vm_compute. reflexivity.
Defined.

Lemma preset_policies_witness :
  Forall (fun t => policiesOf t
                   = (InsertSynthetic, InsertSynthetic,
                      InsertSynthetic, InsertSynthetic))
         (threadTransitions switchOnlyRegistry switchEvent).1.1
  /\ Forall (fun t => policiesOf t = (Assert, Assert, Assert, Assert)
                      \/ policiesOf t = (Drop, Drop, Drop, Assert))
            (threadTransitions defaultRegistry wakeupEvent).1.1.
Proof.
  split.
  - exact (proj2 (preset_policies switchOnlyRegistry switchEvent) eq_refl).
  - exact (proj1 (preset_policies defaultRegistry wakeupEvent) eq_refl).
Defined.

Lemma unread_fields_ignored_witness :
  let ttsb := newThreadTransitionSetBuilder (bank []) in
  LoadSchedWakeup (withNumber "orig_cpu" 6 wakeupEvent) ttsb
  = LoadSchedWakeup wakeupEvent ttsb
  /\ LoadSchedWakeup (withText "next_comm" "y" wakeupEvent) ttsb
     = LoadSchedWakeup wakeupEvent ttsb.
Proof.
  intros ttsb.
  destruct (unread_fields_ignored LoadSchedWakeup _ _ wakeupEvent ttsb
              "orig_cpu" 6 "y" reads_wakeup) as [Hnumber _].
  destruct (unread_fields_ignored LoadSchedWakeup _ _ wakeupEvent ttsb
              "next_comm" 6 "y" reads_wakeup) as [_ Htext].
  split.
  - apply Hnumber. simpl. intuition discriminate.
  - apply Htext. simpl. intuition discriminate.
Defined.

Lemma equal_comm_equal_handle_witness :
  let ttsb1 := newThreadTransitionSetBuilder (bank ["a"]) in
  let ttsb2 := newThreadTransitionSetBuilder (bank ["a"; "x"; "b"]) in
  exists t1 t2 : threadTransition,
    tts (LoadSchedMigrateTask migrateEvent ttsb1).2 = [t1]
    /\ tts (LoadSchedWakeup (withText "comm" "x" wakeupEvent) ttsb2).2 = [t2]
    /\ PrevCommand t2 = PrevCommand t1
    /\ NextCommand t2 = NextCommand t1.
Proof.
  intros ttsb1 ttsb2. do 2 eexists.
  split; [vm_compute; reflexivity|].
  split; [vm_compute; reflexivity|].
  apply (equal_comm_equal_handle LoadSchedMigrateTask LoadSchedWakeup
           migrateEvent (withText "comm" "x" wakeupEvent) ttsb1 ttsb2
           _ _ (bank ["a"; "x"]) (bank ["a"; "x"; "b"])).
  - left. reflexivity.
  - right. reflexivity.
  - vm_compute. reflexivity.
  - apply rtc_once. exists "b". vm_compute. reflexivity.
  - vm_compute. reflexivity.
  - vm_compute. reflexivity.
Defined.

End MoreRuns.
